(** * Typing Speed Tester: a shallow embedding of [minipython.py]

    The program is one Tkinter class, [TypingTester].  Its state is a handful
    of attributes ([start_time], [end_time], [running], [sample]) and five
    widgets; its methods are [new_text], [reset], [on_key_press],
    [get_typed_text] and [finish].

    Modelling choices, all visible in the definitions below:
    - Python [float] values (clock readings, elapsed time, WPM, accuracy) are
      exact rationals [Q] in the model of the object: this is the arithmetic
      of lines 131 and 143 to 146 without rounding, underflow or overflow, and
      [1e-9] is the rational [1 / 10^9].  Module [B64] gives the same lines in
      binary64, bit for bit; the two differ where a quotient rounds, where
      [elapsed / 60] underflows to [0.0] (line 144 then raises) and where a
      quotient overflows to [inf].
    - [time.time()] is a function [clock : nat -> Q] of the number of earlier
      calls; nothing is assumed about it (the wall clock may step backwards).
    - [random.choice] takes its random draw as an argument.
    - a [tk.Text] widget is its text; [get('1.0', tk.END)] returns that text
      followed by the newline Tk keeps at the end of every text widget.
    - a [tk.Label] is its text; [messagebox.showinfo] appends to a log.
    - a Python exception is the [Raise] branch of [Result]. *)

From Stdlib Require Import Bool Arith List Lia ZArith QArith Qround Qabs Qminmax Lqa.
From Stdlib Require Import String Ascii DecimalString.
From Stdlib Require PrimFloat Uint63.
Import ListNotations.

Open Scope string_scope.
Open Scope nat_scope.

(** ** Python values and primitives *)

Module Py.

Inductive Exn : Type :=
| ZeroDivisionError.

Inductive Result (A : Type) : Type :=
| Ok (a : A)
| Raise (e : Exn).

Arguments Ok {A} a.
Arguments Raise {A} e.

Definition bind {A B : Type} (c : Result A) (k : A -> Result B) : Result B :=
  match c with
  | Ok a => k a
  | Raise e => Raise e
  end.

(** [x / y] on floats, as the exact quotient: raises on a zero divisor.  The
    binary64 quotient ([B64.truediv]) is this one rounded; it can be [0.0] or
    [inf] where this one is a non-zero rational. *)
Definition truediv (x y : Q) : Result Q :=
  if Qeq_bool y 0 then Raise ZeroDivisionError else Ok (x / y)%Q.

(** An [int] used in float arithmetic. *)
Definition of_int (n : nat) : Q := inject_Z (Z.of_nat n).

(** [x > 0] on floats. *)
Definition gt0 (x : Q) : bool := negb (Qle_bool x 0).

(** Truth value of an attribute that holds [None] or a float:
    [None] and [0.0] are false. *)
Definition truthy (x : option Q) : bool :=
  match x with
  | None => false
  | Some t => negb (Qeq_bool t 0)
  end.

Definition newline : ascii := "010"%char.

Definition is_empty (s : string) : bool :=
  match s with
  | EmptyString => true
  | String _ _ => false
  end.

(** [s.rstrip(c)] for a one-character argument: every trailing [c] goes. *)
Fixpoint rstrip (c : ascii) (s : string) : string :=
  match s with
  | EmptyString => EmptyString
  | String a r =>
      let r' := rstrip c r in
      if Ascii.eqb a c && is_empty r' then EmptyString else String a r'
  end.

(** [s[i]] for an index known to be in range. *)
Definition index (s : string) (i : nat) : option ascii := String.get i s.

Definition dec (n : Z) : string := NilZero.string_of_uint (N.to_uint (Z.to_N n)).

(** Nearest integer of a non-negative rational, ties to even. *)
Definition round_half_even (q : Q) : Z :=
  let f := Qfloor q in
  match Qcompare (q - inject_Z f) (1 # 2) with
  | Lt => f
  | Gt => (f + 1)%Z
  | Eq => if Z.even f then f else (f + 1)%Z
  end.

(** [f"{q:.2f}"]. *)
Definition format_2f (q : Q) : string :=
  let h := round_half_even (Qabs q * 100) in
  (if gt0 (- q) then "-" else "")
    ++ dec (h / 100) ++ "." ++ (if (h mod 100 <? 10)%Z then "0" else "") ++ dec (h mod 100).

End Py.

Import Py.

Notation "x <- c ;; k" := (bind c (fun x => k))
  (at level 61, c at next level, right associativity).

(** ** The [TypingTester] object *)

(** The attributes of [self] that the methods read or write, the widgets they
    touch, the log of [messagebox.showinfo] calls (oldest first) and the number
    of [time.time()] calls made so far. *)
Record TypingTester : Type := mkTypingTester {
  start_time : option Q;
  end_time : option Q;
  running : bool;
  sample : string;
  sample_text : string;
  input_entry : string;
  time_label : string;
  wpm_label : string;
  acc_label : string;
  showinfo_log : list (string * string);
  time_calls : nat
}.

Definition set_start_time (v : option Q) (self : TypingTester) : TypingTester :=
  mkTypingTester v (end_time self) (running self) (sample self) (sample_text self)
    (input_entry self) (time_label self) (wpm_label self) (acc_label self)
    (showinfo_log self) (time_calls self).

Definition set_end_time (v : option Q) (self : TypingTester) : TypingTester :=
  mkTypingTester (start_time self) v (running self) (sample self) (sample_text self)
    (input_entry self) (time_label self) (wpm_label self) (acc_label self)
    (showinfo_log self) (time_calls self).

Definition set_running (v : bool) (self : TypingTester) : TypingTester :=
  mkTypingTester (start_time self) (end_time self) v (sample self) (sample_text self)
    (input_entry self) (time_label self) (wpm_label self) (acc_label self)
    (showinfo_log self) (time_calls self).

Definition set_sample (v : string) (self : TypingTester) : TypingTester :=
  mkTypingTester (start_time self) (end_time self) (running self) v (sample_text self)
    (input_entry self) (time_label self) (wpm_label self) (acc_label self)
    (showinfo_log self) (time_calls self).

Definition set_sample_text (v : string) (self : TypingTester) : TypingTester :=
  mkTypingTester (start_time self) (end_time self) (running self) (sample self) v
    (input_entry self) (time_label self) (wpm_label self) (acc_label self)
    (showinfo_log self) (time_calls self).

Definition set_input_entry (v : string) (self : TypingTester) : TypingTester :=
  mkTypingTester (start_time self) (end_time self) (running self) (sample self)
    (sample_text self) v (time_label self) (wpm_label self) (acc_label self)
    (showinfo_log self) (time_calls self).

(** [time_label.config], [wpm_label.config] and [acc_label.config], which the
    source always calls together. *)
Definition config_labels (t w a : string) (self : TypingTester) : TypingTester :=
  mkTypingTester (start_time self) (end_time self) (running self) (sample self)
    (sample_text self) (input_entry self) t w a (showinfo_log self) (time_calls self).

Definition showinfo (title message : string) (self : TypingTester) : TypingTester :=
  mkTypingTester (start_time self) (end_time self) (running self) (sample self)
    (sample_text self) (input_entry self) (time_label self) (wpm_label self)
    (acc_label self) (showinfo_log self ++ [(title, message)])%list (time_calls self).

(** [widget.get('1.0', tk.END)] on a text widget holding [text]. *)
Definition Text_get_all (text : string) : string := text ++ String newline "".

Definition SAMPLE_TEXTS : list string :=
  [ "The quick brown fox jumps over the lazy dog.";
    "Typing is a skill that improves with practice and patience.";
    "Practice makes perfect, so keep typing and track your progress.";
    "Python is a great language for building small tools and utilities.";
    "A journey of a thousand miles begins with a single step.";
    "Consistency and focus help you improve your typing speed and accuracy." ].

(** [random.choice(seq)] with the draw [r] made explicit. *)
Definition random_choice (r : nat) (seq : list string) : string :=
  nth (r mod List.length seq) seq "".

Definition zero_labels (self : TypingTester) : TypingTester :=
  config_labels "Time: 0.00 s" "WPM: 0.00" "Accuracy: 0.00%" self.

Definition reset (clear_text : bool) (self : TypingTester) : TypingTester :=
  let self := set_start_time None self in
  let self := set_end_time None self in
  let self := set_running false self in
  let self := if clear_text then set_input_entry "" self else self in
  zero_labels self.

Definition new_text (r : nat) (self : TypingTester) : TypingTester :=
  let self := set_sample (random_choice r SAMPLE_TEXTS) self in
  let self := set_sample_text "" self in
  let self := set_sample_text (sample_text self ++ sample self) self in
  reset false self.

(** [__init__], with the draw of its [new_text] call. *)
Definition init (r : nat) : TypingTester :=
  new_text r
    (mkTypingTester None None false "" "" "" "Time: 0.00 s" "WPM: 0.00" "Accuracy: 0.00%" [] 0).

Definition get_typed_text (self : TypingTester) : string :=
  rstrip newline (Text_get_all (input_entry self)).

(** [ch == sample[i]]. *)
Definition char_is (ch : ascii) (c : option ascii) : bool :=
  match c with
  | Some c => Ascii.eqb ch c
  | None => false
  end.

(** The loop [for i, ch in enumerate(typed)] of [finish], started at index [i]
    with the counter at [correct_chars]. *)
Fixpoint count_loop (sample : string) (i : nat) (typed : string) (correct_chars : nat) : nat :=
  match typed with
  | EmptyString => correct_chars
  | String ch rest =>
      count_loop sample (S i) rest
        (if (i <? String.length sample) && char_is ch (index sample i)
         then correct_chars + 1 else correct_chars)
  end.

(** The local variables of [finish]. *)
Record Locals : Type := mkLocals {
  elapsed : Q;
  typed : string;
  correct_chars : nat;
  total_typed : nat;
  minutes : Q;
  wpm : Q;
  accuracy : Q
}.

Definition epsilon : Q := 1 / 1000000000.

(** Line 143, in exact arithmetic: here [elapsed / 60] is positive for every
    positive [elapsed]; [B64.compute_minutes] is the same line in binary64,
    where it is [0.0] for the smallest positive values of [elapsed]. *)
Definition compute_minutes (elapsed : Q) : Result Q :=
  if gt0 elapsed then truediv elapsed 60 else Ok epsilon.

(** Line 144. *)
Definition compute_wpm (correct_chars : nat) (minutes : Q) : Result Q :=
  words <- truediv (of_int correct_chars) 5 ;;
  truediv words minutes.

(** Line 146. *)
Definition compute_accuracy (correct_chars total_typed : nat) : Result Q :=
  if 0 <? total_typed then
    ratio <- truediv (of_int correct_chars) (of_int total_typed) ;;
    Ok (ratio * 100)%Q
  else Ok 0%Q.

(** Line 131: [end_time - start_time if start_time else 0.0]. *)
Definition compute_elapsed (start_time : option Q) (end_time : Q) : Q :=
  match start_time with
  | Some t => if truthy (Some t) then (end_time - t)%Q else 0%Q
  | None => 0%Q
  end.

(** Lines 131 to 146 of [finish], after [end_time] has been set to [now]. *)
Definition finish_locals (self : TypingTester) (now : Q) : Result Locals :=
  let elapsed := compute_elapsed (start_time self) now in
  let typed := get_typed_text self in
  let correct_chars := count_loop (sample self) 0 typed 0 in
  let total_typed := String.length typed in
  minutes <- compute_minutes elapsed ;;
  wpm <- compute_wpm correct_chars minutes ;;
  accuracy <- compute_accuracy correct_chars total_typed ;;
  Ok (mkLocals elapsed typed correct_chars total_typed minutes wpm accuracy).

Definition not_started_message : string :=
  "Start typing first (press any key in the input box) to begin test.".

Definition results_message (v : Locals) : string :=
  "Time: " ++ format_2f (elapsed v) ++ " s" ++ String newline
  ("WPM: " ++ format_2f (wpm v) ++ String newline
  ("Accuracy: " ++ format_2f (accuracy v) ++ "%")).

Record Event : Type := mkEvent { char : string }.

Section Methods.

(** [clock n] is what the [n]-th call of [time.time()] returns. *)
Variable clock : nat -> Q.

Definition time_time (self : TypingTester) : Q * TypingTester :=
  (clock (time_calls self),
   mkTypingTester (start_time self) (end_time self) (running self) (sample self)
     (sample_text self) (input_entry self) (time_label self) (wpm_label self)
     (acc_label self) (showinfo_log self) (S (time_calls self))).

Definition finish (self : TypingTester) : Result TypingTester :=
  if negb (running self) && negb (truthy (start_time self)) then
    Ok (showinfo "Info" not_started_message self)
  else
    let (now, self) := time_time self in
    let self := set_end_time (Some now) self in
    v <- finish_locals self now ;;
    let self :=
      config_labels ("Time: " ++ format_2f (elapsed v) ++ " s")
        ("WPM: " ++ format_2f (wpm v))
        ("Accuracy: " ++ format_2f (accuracy v) ++ "%") self in
    let self := set_running false self in
    Ok (showinfo "Results" (results_message v) self).

Definition on_key_press (event : Event) (self : TypingTester) : Result TypingTester :=
  let auto_finish (self : TypingTester) :=
    let typed := get_typed_text self in
    if String.length (sample self) <=? String.length typed then finish self else Ok self in
  if negb (running self) then
    if String.length (char event) =? 0 then Ok self
    else
      let (now, self) := time_time self in
      let self := set_start_time (Some now) self in
      let self := set_running true self in
      auto_finish (zero_labels self)
  else auto_finish self.

End Methods.

(** ** Runs of the program

    What can happen to the object between two callbacks: a key event reaches
    [on_key_press]; the user's editing leaves some text in the input widget;
    one of the three buttons is clicked. *)
Inductive Action : Type :=
| KeyPress (event : Event)
| Edit (text : string)
| ClickFinish
| ClickReset
| ClickNewText (r : nat).

Section Runs.

Variable clock : nat -> Q.

Definition step (a : Action) (self : TypingTester) : Result TypingTester :=
  match a with
  | KeyPress event => on_key_press clock event self
  | Edit text => Ok (set_input_entry text self)
  | ClickFinish => finish clock self
  | ClickReset => Ok (reset true self)
  | ClickNewText r => Ok (new_text r self)
  end.

Fixpoint run (l : list Action) (self : TypingTester) : Result TypingTester :=
  match l with
  | [] => Ok self
  | a :: l => self <- step a self ;; run l self
  end.

End Runs.

(** Actions that stay within one test: no reset, no new passage. *)
Definition same_test (a : Action) : bool :=
  match a with
  | KeyPress _ | Edit _ | ClickFinish => true
  | ClickReset | ClickNewText _ => false
  end.

(** ** Vocabulary of the specification *)

(** [finish] took its early return: the "start typing first" prompt and
    nothing else. *)
Definition NotStarted (clock : nat -> Q) (self : TypingTester) : Prop :=
  finish clock self = Ok (showinfo "Info" not_started_message self).

(** [finish] ran to its end in [self'] with locals [v]: it read the clock
    once, stored the reading in [end_time], cleared [running], wrote the three
    labels and showed the results. *)
Definition Finalized (clock : nat -> Q) (self self' : TypingTester) (v : Locals) : Prop :=
  let now := clock (time_calls self) in
  finish clock self = Ok self' /\
  finish_locals self now = Ok v /\
  end_time self' = Some now /\
  running self' = false /\
  start_time self' = start_time self /\
  time_label self' = "Time: " ++ format_2f (elapsed v) ++ " s" /\
  wpm_label self' = "WPM: " ++ format_2f (wpm v) /\
  acc_label self' = "Accuracy: " ++ format_2f (accuracy v) ++ "%" /\
  showinfo_log self' = (showinfo_log self ++ [("Results", results_message v)])%list.

(** Position [i] is inside both strings and they agree there. *)
Definition match_at (sample typed : string) (i : nat) : bool :=
  match index typed i, index sample i with
  | Some a, Some b => Ascii.eqb a b
  | _, _ => false
  end.

(** The number of matching positions below [n]. *)
Definition matching_positions (sample typed : string) (n : nat) : nat :=
  List.length (filter (match_at sample typed) (seq 0 n)).

(** A string of [k] newline characters. *)
Fixpoint newlines (k : nat) : string :=
  match k with
  | O => EmptyString
  | S k => String newline (newlines k)
  end.

(** The object right after an idle [on_key_press] has started the timer
    (lines 109 to 114). *)
Definition started (clock : nat -> Q) (self : TypingTester) : TypingTester :=
  zero_labels
    (set_running true
       (set_start_time (Some (clock (time_calls self))) (snd (time_time clock self)))).

(** [s] ends in a newline. *)
Fixpoint ends_in_newline (s : string) : bool :=
  match s with
  | EmptyString => false
  | String a EmptyString => Ascii.eqb a newline
  | String _ r => ends_in_newline r
  end.

Definition map_result {A B : Type} (f : A -> B) (c : Result A) : Result B :=
  match c with
  | Ok a => Ok (f a)
  | Raise e => Raise e
  end.

(** A clock that reads [t0] at the first call of [time.time()] and one second
    more at each later call. *)
Definition clock_from (t0 : Q) (n : nat) : Q := (t0 + of_int n)%Q.

(** A tester in the middle of a test: passage [s], widget text [text], timer
    started at [t0]. *)
Definition running_tester (s text : string) (t0 : Q) : TypingTester :=
  mkTypingTester (Some t0) None true s s text "Time: 0.00 s" "WPM: 0.00" "Accuracy: 0.00%" [] 1.

(** ** Lines 131 and 143 to 146 in binary64

    The arithmetic of [finish] on IEEE 754 double precision numbers, which is
    what Python's [float] is: [x / y] raises [ZeroDivisionError] when [y] is
    [0.0] or [-0.0] and is the correctly rounded quotient otherwise. *)

Module B64.

Import PrimFloat.

Definition zero : float := 0%float.


(** The literal [1e-9]. *)
Definition epsilon : float := 0x1.12e0be826d695p-30%float.

(** An [int] below [2^53] used in float arithmetic. *)
Definition of_int (n : nat) : float := of_uint63 (Uint63.of_Z (Z.of_nat n)).

Definition truediv (x y : float) : Result float :=
  if eqb y 0 then Raise ZeroDivisionError else Ok (x / y)%float.

(** [x > 0]. *)
Definition gt0 (x : float) : bool := ltb 0 x.

(** Truth value of [None] or a float: [None], [0.0] and [-0.0] are false. *)
Definition truthy (x : option float) : bool :=
  match x with
  | None => false
  | Some t => negb (eqb t 0)
  end.

(** Line 131. *)
Definition compute_elapsed (start_time : option float) (end_time : float) : float :=
  match start_time with
  | Some t => if truthy (Some t) then (end_time - t)%float else 0%float
  | None => 0%float
  end.

(** Line 143. *)
Definition compute_minutes (elapsed : float) : Result float :=
  if gt0 elapsed then truediv elapsed 60 else Ok epsilon.

(** Line 144. *)
Definition compute_wpm (correct_chars : nat) (minutes : float) : Result float :=
  words <- truediv (of_int correct_chars) 5 ;;
  truediv words minutes.

(** Line 146. *)
Definition compute_accuracy (correct_chars total_typed : nat) : Result float :=
  if 0 <? total_typed then
    ratio <- truediv (of_int correct_chars) (of_int total_typed) ;;
    Ok (ratio * 100)%float
  else Ok 0%float.

Record Locals : Type := mkLocals {
  elapsed : float;
  correct_chars : nat;
  total_typed : nat;
  minutes : float;
  wpm : float;
  accuracy : float
}.

(** Lines 131 to 146 of [finish] for the passage [sample], the typed text
    [typed], the attribute [start_time] and the clock reading [now] that line
    130 stored in [end_time]. *)
Definition finish_locals (sample typed : string) (start_time : option float) (now : float)
  : Result Locals :=
  let elapsed := compute_elapsed start_time now in
  let correct_chars := count_loop sample 0 typed 0 in
  let total_typed := String.length typed in
  minutes <- compute_minutes elapsed ;;
  wpm <- compute_wpm correct_chars minutes ;;
  accuracy <- compute_accuracy correct_chars total_typed ;;
  Ok (mkLocals elapsed correct_chars total_typed minutes wpm accuracy).

End B64.

(** ** Reachable objects *)

(** The objects the program can be in: [__init__] followed by any callbacks. *)
Definition Reachable (clock : nat -> Q) (self : TypingTester) : Prop :=
  exists r l, run clock l (init r) = Ok self.

(** A key press that carries a character. *)
Definition visible_key (a : Action) : bool :=
  match a with
  | KeyPress event => negb (String.length (char event) =? 0)
  | _ => false
  end.

(** An object on which no test has begun: no timer, zeroed labels, and no
    dialog shown so far other than the "start typing first" prompt. *)
Definition Idle (self : TypingTester) : Prop :=
  running self = false /\ start_time self = None /\ end_time self = None /\
  time_label self = "Time: 0.00 s" /\ wpm_label self = "WPM: 0.00" /\
  acc_label self = "Accuracy: 0.00%" /\
  Forall (fun d => d = ("Info", not_started_message)) (showinfo_log self).

(** What every callback keeps true of the object. *)
Definition Inv (self : TypingTester) : Prop :=
  In (sample self) SAMPLE_TEXTS /\
  sample_text self = sample self /\
  (running self = true -> exists t, start_time self = Some t) /\
  (end_time self <> None -> exists t, start_time self = Some t).

(** [start_time], when set, is one of the clock readings made so far. *)
Definition StartRead (clock : nat -> Q) (self : TypingTester) : Prop :=
  forall t, start_time self = Some t ->
            exists k, k < time_calls self /\ t = clock k.

(** * Properties *)

(** ** Strings *)

Section StringFacts.

Lemma rstrip_newlines_only (k : nat) : rstrip newline (newlines k) = "".
Proof.
  induction k as [|k IH]; simpl; [reflexivity|].
  rewrite IH. reflexivity.
Qed.

Lemma rstrip_app_newlines (s : string) (k : nat) :
  rstrip newline (s ++ newlines k) = rstrip newline s.
Proof.
  induction s as [|a r IH]; simpl.
  - apply rstrip_newlines_only.
  - rewrite IH. reflexivity.
Qed.

Lemma rstrip_idempotent (c : ascii) (s : string) :
  rstrip c (rstrip c s) = rstrip c s.
Proof.
  induction s as [|a r IH]; simpl; [reflexivity|].
  destruct (Ascii.eqb a c && is_empty (rstrip c r)) eqn:E; simpl; [reflexivity|].
  rewrite IH, E. reflexivity.
Qed.

Lemma rstrip_no_trailing (s : string) :
  ends_in_newline (rstrip newline s) = false.
Proof.
  induction s as [|a r IH]; simpl; [reflexivity|].
  destruct (Ascii.eqb a newline && is_empty (rstrip newline r)) eqn:E; [reflexivity|].
  simpl. destruct (rstrip newline r) as [|b r'] eqn:R.
  - simpl in E. rewrite andb_true_r in E. exact E.
  - exact IH.
Qed.

Lemma rstrip_suffix (s : string) :
  exists k, s = rstrip newline s ++ newlines k.
Proof.
  induction s as [|a r [k IH]]; simpl.
  - exists 0. reflexivity.
  - destruct (Ascii.eqb a newline && is_empty (rstrip newline r)) eqn:E.
    + apply andb_true_iff in E. destruct E as [Ea Er].
      apply Ascii.eqb_eq in Ea. subst a.
      destruct (rstrip newline r); [|discriminate].
      exists (S k). simpl in IH |- *. rewrite <- IH. reflexivity.
    + exists k. simpl. rewrite <- IH. reflexivity.
Qed.

Lemma get_typed_text_rstrip (self : TypingTester) :
  get_typed_text self = rstrip newline (input_entry self).
Proof.
  unfold get_typed_text, Text_get_all.
  apply (rstrip_app_newlines (input_entry self) 1).
Qed.

Lemma get_Some_lt (s : string) (i : nat) (a : ascii) :
  String.get i s = Some a -> i < String.length s.
Proof.
  revert i. induction s as [|b r IH]; intros i H; simpl in *.
  - discriminate.
  - destruct i as [|i]; [lia|]. apply IH in H. lia.
Qed.

Lemma prefix_get (t s : string) :
  String.prefix t s = true ->
  forall j, j < String.length t -> String.get j s = String.get j t.
Proof.
  revert s. induction t as [|a t IH]; intros s H j Hj; simpl in Hj.
  - lia.
  - destruct s as [|b s]; simpl in H; [discriminate|].
    destruct (ascii_dec a b) as [->|]; [|discriminate].
    destruct j as [|j]; simpl; [reflexivity|].
    apply IH; [assumption|lia].
Qed.

End StringFacts.

(** ** The counting loop *)

Section CountLoop.

Variable sample : string.

Lemma count_loop_acc (typed : string) (i c : nat) :
  count_loop sample i typed c = c + count_loop sample i typed 0.
Proof.
  revert i c. induction typed as [|ch rest IH]; intros i c; simpl; [lia|].
  destruct ((i <? String.length sample) && char_is ch (index sample i)).
  - rewrite (IH (S i) (c + 1)), (IH (S i) 1). lia.
  - apply IH.
Qed.

Lemma count_loop_le_typed (typed : string) (i : nat) :
  count_loop sample i typed 0 <= String.length typed.
Proof.
  revert i. induction typed as [|ch rest IH]; intros i; simpl; [lia|].
  rewrite count_loop_acc. specialize (IH (S i)).
  destruct ((i <? String.length sample) && char_is ch (index sample i)); lia.
Qed.

Lemma count_loop_le_sample (typed : string) (i : nat) :
  count_loop sample i typed 0 <= String.length sample - i.
Proof.
  revert i. induction typed as [|ch rest IH]; intros i; simpl; [lia|].
  rewrite count_loop_acc. specialize (IH (S i)).
  destruct (i <? String.length sample) eqn:E; simpl.
  - apply Nat.ltb_lt in E. destruct (char_is ch (index sample i)); lia.
  - lia.
Qed.

Lemma count_loop_all_match (typed : string) (i : nat) :
  (forall j, j < String.length typed ->
             String.get (i + j) sample = String.get j typed) ->
  count_loop sample i typed 0 = String.length typed.
Proof.
  revert i. induction typed as [|ch rest IH]; intros i H; simpl; [reflexivity|].
  rewrite count_loop_acc.
  assert (H0 : String.get i sample = Some ch).
  { specialize (H 0). rewrite Nat.add_0_r in H. apply H. simpl. lia. }
  unfold index. rewrite H0. simpl. rewrite Ascii.eqb_refl, andb_true_r.
  apply get_Some_lt in H0. apply Nat.ltb_lt in H0. rewrite H0.
  rewrite IH; [lia|].
  intros j Hj. specialize (H (S j)). rewrite Nat.add_succ_r in H.
  simpl in *. apply H. lia.
Qed.

Lemma filter_map_length {A B : Type} (f : A -> B) (p : B -> bool) (l : list A) :
  List.length (filter p (map f l)) = List.length (filter (fun x => p (f x)) l).
Proof.
  induction l as [|x l IH]; simpl; [reflexivity|].
  destruct (p (f x)); simpl; rewrite IH; reflexivity.
Qed.

Lemma count_loop_filter (typed : string) (i : nat) :
  count_loop sample i typed 0 =
  List.length
    (filter (fun j => match String.get j typed, String.get (i + j) sample with
                      | Some a, Some b => Ascii.eqb a b
                      | _, _ => false
                      end)
            (seq 0 (String.length typed))).
Proof.
  revert i. induction typed as [|ch rest IH]; intros i; [reflexivity|].
  set (p := fun j => match String.get j (String ch rest), String.get (i + j) sample with
                     | Some a, Some b => Ascii.eqb a b
                     | _, _ => false
                     end).
  cbn [count_loop String.length seq filter].
  rewrite count_loop_acc, <- seq_shift, IH.
  assert (E : (i <? String.length sample) && char_is ch (index sample i) = p 0).
  { unfold p, index. rewrite Nat.add_0_r. simpl.
    destruct (String.get i sample) eqn:G; simpl.
    - apply get_Some_lt in G. apply Nat.ltb_lt in G. rewrite G. reflexivity.
    - apply andb_false_r. }
  assert (F : List.length (filter p (map S (seq 0 (String.length rest)))) =
              List.length
                (filter (fun j => match String.get j rest, String.get (S i + j) sample with
                                  | Some a, Some b => Ascii.eqb a b
                                  | _, _ => false
                                  end)
                        (seq 0 (String.length rest)))).
  { rewrite (filter_map_length S). f_equal. apply filter_ext.
    intros j. unfold p. rewrite Nat.add_succ_r. reflexivity. }
  rewrite E. destruct (p 0); cbn [List.length]; rewrite F; lia.
Qed.

Lemma filter_seq_beyond (p : nat -> bool) (n k : nat) :
  (forall j, n <= j -> p j = false) ->
  filter p (seq 0 (n + k)) = filter p (seq 0 n).
Proof.
  intros H. rewrite seq_app, filter_app.
  assert (E : forall m, n <= m -> filter p (seq m k) = []).
  { induction k as [|k IH]; intros m Hm; simpl; [reflexivity|].
    rewrite H by assumption. apply IH. lia. }
  rewrite E, app_nil_r by (simpl; lia). reflexivity.
Qed.

Lemma count_loop_matching_positions (typed : string) (n : nat) :
  String.length typed <= n ->
  count_loop sample 0 typed 0 = matching_positions sample typed n.
Proof.
  intros Hn. rewrite count_loop_filter. unfold matching_positions.
  replace n with (String.length typed + (n - String.length typed)) by lia.
  rewrite (filter_seq_beyond (match_at sample typed)).
  - f_equal.
  - intros j Hj. unfold match_at, index.
    destruct (String.get j typed) eqn:G; [|reflexivity].
    apply get_Some_lt in G. lia.
Qed.

End CountLoop.

(** ** Arithmetic of [finish] *)

Section Arithmetic.

Open Scope Q_scope.

Lemma gt0_true (x : Q) : gt0 x = true <-> 0 < x.
Proof.
  unfold gt0. rewrite negb_true_iff, <- not_true_iff_false, Qle_bool_iff.
  split; [apply Qnot_le_lt | apply Qlt_not_le].
Qed.

Lemma gt0_false (x : Q) : gt0 x = false <-> x <= 0.
Proof.
  unfold gt0. rewrite negb_false_iff. apply Qle_bool_iff.
Qed.

Lemma truthy_Some (t : Q) : truthy (Some t) = true <-> ~ t == 0.
Proof.
  simpl. rewrite negb_true_iff, <- not_true_iff_false, Qeq_bool_iff. tauto.
Qed.

Lemma truthy_false (x : option Q) :
  truthy x = false <-> x = None \/ exists t, x = Some t /\ t == 0.
Proof.
  destruct x as [t|]; simpl.
  - rewrite negb_false_iff, Qeq_bool_iff. split.
    + intros H. right. exists t. split; [reflexivity | exact H].
    + intros [H | [t' [H H']]]; [discriminate|]. injection H as ->. exact H'.
  - split; [intros _; left; reflexivity | reflexivity].
Qed.

Lemma truediv_ok (x y : Q) : ~ y == 0 -> truediv x y = Ok (x / y).
Proof.
  intros H. unfold truediv.
  destruct (Qeq_bool y 0) eqn:E; [|reflexivity].
  apply Qeq_bool_iff in E. contradiction.
Qed.

Lemma epsilon_pos : 0 < epsilon.
Proof. reflexivity. Qed.

Lemma compute_minutes_ok (e : Q) :
  exists m, compute_minutes e = Ok m /\ 0 < m /\
            (0 < e -> m = e / 60) /\ (e <= 0 -> m = epsilon).
Proof.
  unfold compute_minutes. destruct (gt0 e) eqn:G.
  - apply gt0_true in G. exists (e / 60).
    rewrite truediv_ok by (intros H; discriminate H).
    split; [reflexivity | split; [| split]].
    + apply Qlt_shift_div_l; [reflexivity | lra].
    + reflexivity.
    + intros H. exfalso. lra.
  - apply gt0_false in G. exists epsilon.
    split; [reflexivity | split; [| split]].
    + apply epsilon_pos.
    + intros H. exfalso. lra.
    + reflexivity.
Qed.

Lemma compute_wpm_ok (c : nat) (m : Q) :
  0 < m -> compute_wpm c m = Ok (of_int c / 5 / m).
Proof.
  intros H. unfold compute_wpm.
  rewrite truediv_ok by (intros E; discriminate E). simpl.
  apply truediv_ok. lra.
Qed.

Lemma of_int_nonneg (n : nat) : 0 <= of_int n.
Proof.
  unfold of_int. change 0 with (inject_Z 0). rewrite <- Zle_Qle. lia.
Qed.

Lemma of_int_pos (n : nat) : (0 < n)%nat -> 0 < of_int n.
Proof.
  intros H. unfold of_int. change 0 with (inject_Z 0). rewrite <- Zlt_Qlt. lia.
Qed.

Lemma of_int_le (n m : nat) : (n <= m)%nat -> of_int n <= of_int m.
Proof.
  intros H. unfold of_int. rewrite <- Zle_Qle. lia.
Qed.

Lemma compute_accuracy_ok (c n : nat) :
  exists a, compute_accuracy c n = Ok a /\
            ((0 < n)%nat -> a = of_int c / of_int n * 100) /\
            (n = 0%nat -> a = 0).
Proof.
  unfold compute_accuracy. destruct (0 <? n)%nat eqn:E.
  - apply Nat.ltb_lt in E. exists (of_int c / of_int n * 100).
    rewrite truediv_ok by (pose proof (of_int_pos n E); lra).
    simpl. split; [reflexivity | split].
    + reflexivity.
    + intros ->. inversion E.
  - apply Nat.ltb_ge in E. exists 0.
    split; [reflexivity | split].
    + intros H. lia.
    + reflexivity.
Qed.

Lemma accuracy_range (c n : nat) :
  (c <= n)%nat -> (0 < n)%nat -> 0 <= of_int c / of_int n * 100 <= 100.
Proof.
  intros Hc Hn.
  pose proof (of_int_pos n Hn) as Pn.
  pose proof (of_int_nonneg c) as Pc.
  pose proof (of_int_le c n Hc) as Pcn.
  assert (H0 : 0 <= of_int c / of_int n).
  { apply Qle_shift_div_l; [assumption | lra]. }
  assert (H1 : of_int c / of_int n <= 1).
  { apply Qle_shift_div_r; [assumption | lra]. }
  lra.
Qed.

End Arithmetic.

(** ** [finish] *)

Section Finish.

Variable clock : nat -> Q.

Lemma finish_locals_total (self : TypingTester) (now : Q) :
  exists v, finish_locals self now = Ok v.
Proof.
  unfold finish_locals.
  destruct (compute_minutes_ok (compute_elapsed (start_time self) now))
    as [m [Hm [Pm _]]].
  rewrite Hm. simpl. rewrite (compute_wpm_ok _ m Pm). simpl.
  destruct (compute_accuracy_ok
              (count_loop (sample self) 0 (get_typed_text self) 0)
              (String.length (get_typed_text self))) as [a [Ha _]].
  rewrite Ha. simpl. eexists. reflexivity.
Qed.

Lemma finish_locals_inv (self : TypingTester) (now : Q) (v : Locals) :
  finish_locals self now = Ok v ->
  elapsed v = compute_elapsed (start_time self) now /\
  typed v = get_typed_text self /\
  correct_chars v = count_loop (sample self) 0 (get_typed_text self) 0 /\
  total_typed v = String.length (get_typed_text self) /\
  compute_minutes (elapsed v) = Ok (minutes v) /\
  compute_wpm (correct_chars v) (minutes v) = Ok (wpm v) /\
  compute_accuracy (correct_chars v) (total_typed v) = Ok (accuracy v).
Proof.
  unfold finish_locals.
  destruct (compute_minutes _) as [m|] eqn:Hm; simpl; [|discriminate].
  destruct (compute_wpm _ m) as [w|] eqn:Hw; simpl; [|discriminate].
  destruct (compute_accuracy _ _) as [a|] eqn:Ha; simpl; [|discriminate].
  intros H. injection H as <-. simpl. repeat split; assumption.
Qed.

Lemma finish_early (self : TypingTester) :
  running self = false -> truthy (start_time self) = false ->
  NotStarted clock self.
Proof.
  intros R T. unfold NotStarted, finish. rewrite R, T. reflexivity.
Qed.

Lemma finish_late (self : TypingTester) :
  running self = true \/ truthy (start_time self) = true ->
  exists self' v, Finalized clock self self' v.
Proof.
  intros H.
  destruct (finish_locals_total self (clock (time_calls self))) as [v Hv].
  assert (G : negb (running self) && negb (truthy (start_time self)) = false).
  { destruct H as [-> | ->]; [reflexivity | apply andb_false_r]. }
  eexists. exists v. unfold Finalized, finish. rewrite G.
  cbn [time_time].
  change (finish_locals (set_end_time _ _) _)
    with (finish_locals self (clock (time_calls self))).
  rewrite Hv. cbn [bind].
  repeat split; first [reflexivity | exact Hv].
Qed.

Lemma finish_total (self : TypingTester) : exists self', finish clock self = Ok self'.
Proof.
  destruct (running self) eqn:R.
  - destruct (finish_late self (or_introl R)) as [s' [v [H _]]]. eauto.
  - destruct (truthy (start_time self)) eqn:T.
    + destruct (finish_late self (or_intror T)) as [s' [v [H _]]]. eauto.
    + eexists. apply finish_early; assumption.
Qed.

Lemma on_key_press_total (event : Event) (self : TypingTester) :
  exists self', on_key_press clock event self = Ok self'.
Proof.
  unfold on_key_press.
  destruct (negb (running self)); [destruct (String.length (char event) =? 0)|].
  - eauto.
  - cbn [time_time].
    match goal with |- context [if ?b then _ else _] => destruct b end;
      [apply finish_total | eauto].
  - match goal with |- context [if ?b then _ else _] => destruct b end;
      [apply finish_total | eauto].
Qed.

Lemma Finalized_not_NotStarted (self self' : TypingTester) (v : Locals) :
  Finalized clock self self' v -> ~ NotStarted clock self.
Proof.
  intros [F [_ [_ [_ [_ [_ [_ [_ L]]]]]]]] N. unfold NotStarted in N.
  rewrite F in N. injection N as ->. simpl in L.
  apply app_inv_head in L. discriminate L.
Qed.

End Finish.

(** ** Scoring *)

Section Scoring.

Variable clock : nat -> Q.

(** C1. For every passage and typed text, when the typed text is a prefix of
    the passage, [finish] computes [correct_chars] equal to the length of the
    typed text.  In general [correct_chars] is the number of positions that lie
    inside both strings and hold the same character in both. *)
Theorem finish_correct_chars_prefix (self : TypingTester) (now : Q) :
  exists v,
    finish_locals self now = Ok v /\
    typed v = get_typed_text self /\
    (forall n, String.length (typed v) <= n ->
               correct_chars v = matching_positions (sample self) (typed v) n) /\
    (forall k, String.prefix (typed v) (sample self) = true ->
               String.length (typed v) = k ->
               correct_chars v = k).
Proof.
  destruct (finish_locals_total self now) as [v Hv]. exists v.
  destruct (finish_locals_inv self now v Hv) as [_ [Ht [Hc _]]].
  split; [exact Hv | split; [exact Ht | split]].
  - intros n Hn. rewrite Hc, Ht. apply count_loop_matching_positions.
    rewrite <- Ht. exact Hn.
  - intros k Hp <-. rewrite Hc, Ht. apply count_loop_all_match.
    intros j Hj. simpl. rewrite <- Ht in Hj |- *. apply prefix_get; assumption.
Qed.

Lemma finish_correct_chars_prefix_witness :
  exists v,
    finish_locals (running_tester "cat" "ca" 100) 103 = Ok v /\
    String.prefix (typed v) "cat" = true /\
    correct_chars v = 2.
Proof.
  destruct (finish_correct_chars_prefix (running_tester "cat" "ca" 100) 103)
    as [v [Hv [Ht [_ Hk]]]].
  exists v.
  assert (Hp : String.prefix (typed v) "cat" = true) by (rewrite Ht; reflexivity).
  split; [exact Hv | split; [exact Hp |]].
  apply Hk; [exact Hp | rewrite Ht; reflexivity].
Defined.

(** C10. For every passage and typed text, [finish] computes [correct_chars]
    no larger than the length of the typed text and no larger than the length
    of the passage, and an [accuracy] between 0 and 100. *)
Theorem finish_correct_chars_bounded (self : TypingTester) (now : Q) :
  exists v,
    finish_locals self now = Ok v /\
    total_typed v = String.length (get_typed_text self) /\
    correct_chars v <= Nat.min (total_typed v) (String.length (sample self)) /\
    (0 <= accuracy v <= 100)%Q.
Proof.
  destruct (finish_locals_total self now) as [v Hv]. exists v.
  destruct (finish_locals_inv self now v Hv) as [_ [_ [Hc [Hn [_ [_ Ha]]]]]].
  assert (B : correct_chars v <= Nat.min (total_typed v) (String.length (sample self))).
  { rewrite Hc, Hn.
    pose proof (count_loop_le_typed (sample self) (get_typed_text self) 0).
    pose proof (count_loop_le_sample (sample self) (get_typed_text self) 0).
    lia. }
  split; [exact Hv | split; [exact Hn | split; [exact B |]]].
  destruct (compute_accuracy_ok (correct_chars v) (total_typed v)) as [a [Ha' [Pos Zero]]].
  rewrite Ha in Ha'. injection Ha' as <-.
  destruct (Nat.eq_dec (total_typed v) 0) as [E|E].
  - rewrite (Zero E). split; discriminate.
  - rewrite Pos by lia. apply accuracy_range; lia.
Qed.


End Scoring.

(** ** Elapsed time and words per minute *)

Section Timing.

Variable clock : nat -> Q.

Open Scope Q_scope.

Lemma round_half_even_comp (x y : Q) : x == y -> round_half_even x = round_half_even y.
Proof.
  intros E. unfold round_half_even.
  rewrite (Qfloor_comp x y E).
  assert (C : Qcompare (x - inject_Z (Qfloor y)) (1 # 2) =
              Qcompare (y - inject_Z (Qfloor y)) (1 # 2)).
  { apply Qcompare_comp; [rewrite E|]; reflexivity. }
  rewrite C. reflexivity.
Qed.

Lemma format_2f_comp (x y : Q) : x == y -> format_2f x = format_2f y.
Proof.
  intros E. unfold format_2f.
  rewrite (round_half_even_comp (Qabs x * 100) (Qabs y * 100)) by (rewrite E; reflexivity).
  replace (gt0 (- x)) with (gt0 (- y)); [reflexivity|].
  unfold gt0. f_equal. apply Qleb_comp; [rewrite E|]; reflexivity.
Qed.

Lemma compute_elapsed_started (t now : Q) :
  ~ t == 0 -> compute_elapsed (Some t) now = now - t.
Proof.
  intros H. unfold compute_elapsed.
  apply truthy_Some in H. rewrite H. reflexivity.
Qed.

Lemma compute_elapsed_missing (start : option Q) (now : Q) :
  truthy start = false -> compute_elapsed start now = 0.
Proof.
  intros H. unfold compute_elapsed. destruct start; [rewrite H|]; reflexivity.
Qed.

(** C4 as stated fails when the clock steps backwards: a timer started at
    clock reading 10 and finished at reading 4 reports [-6], not [max(-6, 0)]. *)
Lemma finish_elapsed_not_clamped :
  exists self' v,
    Finalized (fun _ => 4) (running_tester "cat" "cat" 10) self' v /\
    start_time self' = Some 10 /\
    end_time self' = Some 4 /\
    elapsed v = - (6) /\
    time_label self' = "Time: -6.00 s"%string /\
    ~ elapsed v == Qmax (4 - 10) 0.
Proof.
  set (self := running_tester "cat" "cat" 10). set (clk := fun _ : nat => 4).
  destruct (finish_late clk self (or_introl eq_refl)) as [self' [v F]].
  exists self', v.
  pose proof F as [_ [Hv [He [_ [Hs [Hl _]]]]]].
  apply finish_locals_inv in Hv. destruct Hv as [Hel _].
  assert (E : elapsed v = - (6)) by (rewrite Hel; reflexivity).
  split; [exact F | split; [exact Hs | split; [exact He | split; [exact E | split]]]].
  - rewrite Hl, E. reflexivity.
  - rewrite E. intros H. discriminate H.
Qed.

(** C4 (as amended). When [finish] runs to its end it stores the clock
    reading in [end_time] and reports [end_time - start_time] as the elapsed
    time whenever [start_time] is set and non-zero: this is
    [max(end_time - start_time, 0)] if the clock did not step backwards, and it
    is negative otherwise.  The elapsed time is 0 when [start_time] is
    missing. *)
Theorem finish_elapsed (self self' : TypingTester) (v : Locals) :
  Finalized clock self self' v ->
  let now := clock (time_calls self) in
  end_time self' = Some now /\
  time_label self' = ("Time: " ++ format_2f (elapsed v) ++ " s")%string /\
  (forall t, start_time self = Some t -> ~ t == 0 ->
             elapsed v = now - t /\
             (t <= now -> elapsed v == Qmax (now - t) 0) /\
             (now < t -> elapsed v < 0)) /\
  (start_time self = None -> elapsed v = 0).
Proof.
  intros [_ [Hv [He [_ [_ [Hl _]]]]]] now.
  apply finish_locals_inv in Hv. destruct Hv as [Hel _]. fold now in Hel.
  split; [exact He | split; [exact Hl | split]].
  - intros t Ht Hz. rewrite Ht, (compute_elapsed_started t now Hz) in Hel.
    split; [exact Hel | split].
    + intros Hle. rewrite Hel. symmetry. apply Q.max_l. lra.
    + intros Hlt. rewrite Hel. lra.
  - intros Hf. rewrite Hel, Hf. reflexivity.
Qed.

End Timing.

Lemma finish_elapsed_witness :
  exists self' v,
    Finalized (fun _ => 106%Q) (running_tester "cat" "cat" 100%Q) self' v /\
    end_time self' = Some 106%Q /\
    elapsed v = (106 - 100)%Q.
Proof.
  destruct (finish_late (fun _ => 106%Q) (running_tester "cat" "cat" 100%Q) (or_introl eq_refl))
    as [self' [v F]].
  exists self', v.
  destruct (finish_elapsed (fun _ => 106%Q) _ _ _ F) as [He [_ [Hs _]]].
  split; [exact F | split; [exact He |]].
  apply (Hs 100%Q); [reflexivity | intros H; discriminate H].
Defined.

Section WordsPerMinute.

Open Scope Q_scope.

Lemma finish_wpm_value (self : TypingTester) (now : Q) (v : Locals) :
  finish_locals self now = Ok v ->
  0 < minutes v /\
  wpm v = of_int (correct_chars v) / 5 / minutes v /\
  (0 < elapsed v -> minutes v = elapsed v / 60) /\
  (elapsed v <= 0 -> minutes v = epsilon).
Proof.
  intros Hv.
  destruct (finish_locals_inv self now v Hv) as [_ [_ [_ [_ [Hm [Hw _]]]]]].
  destruct (compute_minutes_ok (elapsed v)) as [m [Hm' [Pm [Pos Neg]]]].
  rewrite Hm in Hm'. injection Hm' as <-.
  rewrite (compute_wpm_ok _ _ Pm) in Hw. injection Hw as <-.
  repeat split; assumption.
Qed.

Lemma div_antitone (a m1 m2 : Q) :
  0 <= a -> 0 < m1 -> m1 <= m2 -> a / m2 <= a / m1.
Proof.
  intros Ha H1 H2.
  apply Qle_shift_div_l; [assumption|].
  assert (P : 0 <= a / m2) by (apply Qle_shift_div_l; lra).
  assert (E : a == a / m2 * m2) by (field; lra).
  rewrite E at 2.
  rewrite (Qmult_comm (a / m2) m1), (Qmult_comm (a / m2) m2).
  apply Qmult_le_compat_r; assumption.
Qed.

(** C5 as stated fails at elapsed time 0: one correct character gives a
    smaller WPM after 0 seconds (where [minutes] is [1e-9]) than after
    [1e-9] seconds (where [minutes] is [1e-9 / 60]). *)
Lemma finish_wpm_not_monotone_at_zero :
  exists v1 v2,
    finish_locals (running_tester "c" "c" 1) 1 = Ok v1 /\
    finish_locals (running_tester "c" "c" 1) (1 + epsilon) = Ok v2 /\
    correct_chars v1 = 1%nat /\ correct_chars v2 = 1%nat /\
    elapsed v1 == 0 /\ elapsed v2 == epsilon /\
    0 <= elapsed v1 <= elapsed v2 /\
    wpm v1 == 200000000 /\ wpm v2 == 12000000000 /\
    ~ wpm v2 <= wpm v1.
Proof.
  eexists. eexists.
  split; [vm_compute; reflexivity | split; [vm_compute; reflexivity |]].
  cbn [correct_chars elapsed wpm].
  repeat split; try reflexivity; try (intros H; discriminate H).
  intros H. vm_compute in H. apply H. reflexivity.
Qed.

(** C5 (as amended). For equal [correct_chars > 0], the WPM computed by
    [finish] does not increase when the elapsed time grows within the strictly
    positive elapsed times; and the WPM at elapsed time 0, computed with
    [minutes = 1e-9], is at least the WPM at every elapsed time from
    [60 * 1e-9] seconds on. *)
Theorem finish_wpm_monotone
    (self1 self2 : TypingTester) (now1 now2 : Q) (v1 v2 : Locals) :
  finish_locals self1 now1 = Ok v1 ->
  finish_locals self2 now2 = Ok v2 ->
  correct_chars v1 = correct_chars v2 ->
  (0 < correct_chars v1)%nat ->
  0 <= elapsed v1 -> elapsed v1 <= elapsed v2 ->
  0 < elapsed v1 \/ 60 * epsilon <= elapsed v2 \/ elapsed v2 == 0 ->
  wpm v2 <= wpm v1.
Proof.
  intros H1 H2 Hc Hpos He1 Hle Hside.
  destruct (finish_wpm_value _ _ _ H1) as [P1 [W1 [Pos1 Neg1]]].
  destruct (finish_wpm_value _ _ _ H2) as [P2 [W2 [Pos2 Neg2]]].
  rewrite W1, W2, <- Hc.
  apply div_antitone; [| exact P1 |].
  - pose proof (of_int_nonneg (correct_chars v1)).
    apply Qle_shift_div_l; lra.
  - destruct (Qlt_le_dec 0 (elapsed v1)) as [L1|L1].
    + rewrite (Pos1 L1), (Pos2 ltac:(lra)).
      apply Qle_shift_div_l; [reflexivity|].
      assert (E : elapsed v1 / 60 * 60 == elapsed v1) by (field; discriminate).
      rewrite E. exact Hle.
    + rewrite (Neg1 L1).
      destruct (Qlt_le_dec 0 (elapsed v2)) as [L2|L2].
      * rewrite (Pos2 L2). apply Qle_shift_div_l; [reflexivity|].
        destruct Hside as [S|[S|S]]; lra.
      * rewrite (Neg2 L2). apply Qle_refl.
Qed.

Lemma finish_wpm_monotone_witness :
  exists v1 v2,
    finish_locals (running_tester "cat" "cat" 100) 103 = Ok v1 /\
    finish_locals (running_tester "cat" "cat" 100) 106 = Ok v2 /\
    wpm v2 <= wpm v1.
Proof.
  eexists. eexists.
  split; [vm_compute; reflexivity | split; [vm_compute; reflexivity |]].
  eapply (finish_wpm_monotone
            (running_tester "cat" "cat" 100) (running_tester "cat" "cat" 100) 103 106).
  - vm_compute; reflexivity.
  - vm_compute; reflexivity.
  - reflexivity.
  - vm_compute; lia.
  - vm_compute; discriminate.
  - vm_compute; discriminate.
  - left. reflexivity.
Defined.

End WordsPerMinute.

(** ** Scenario B *)

Section ScenarioB.

Variable clock : nat -> Q.

Open Scope Q_scope.

(** C3. With the passage "cat", the typed text "cxt" and an elapsed time of
    exactly 3 seconds, [finish] computes [correct_chars = 2],
    [wpm = (2/5)/(3/60) = 8] and [accuracy = 2/3*100 = 200/3], and it displays
    them as "8.00" and "66.67%". *)
Theorem finish_cat_cxt (self : TypingTester) :
  sample self = "cat"%string ->
  get_typed_text self = "cxt"%string ->
  compute_elapsed (start_time self) (clock (time_calls self)) == 3 ->
  exists self' v,
    Finalized clock self self' v /\
    correct_chars v = 2%nat /\
    elapsed v == 3 /\
    wpm v == (2 / 5) / (3 / 60) /\ wpm v == 8 /\
    accuracy v == 2 / 3 * 100 /\ accuracy v == 200 # 3 /\
    time_label self' = "Time: 3.00 s"%string /\
    wpm_label self' = "WPM: 8.00"%string /\
    acc_label self' = "Accuracy: 66.67%"%string.
Proof.
  intros Hs Ht Hel.
  assert (T : truthy (start_time self) = true).
  { destruct (truthy (start_time self)) eqn:T; [reflexivity|].
    rewrite (compute_elapsed_missing _ _ T) in Hel. discriminate Hel. }
  destruct (finish_late clock self (or_intror T)) as [self' [v F]].
  exists self', v.
  pose proof F as [_ [Hv [_ [_ [_ [Ltime [Lwpm [Lacc _]]]]]]]].
  destruct (finish_wpm_value _ _ _ Hv) as [_ [W [Pos _]]].
  destruct (finish_locals_inv _ _ _ Hv) as [He [_ [Hc [Hn [_ [_ Ha]]]]]].
  assert (E3 : elapsed v == 3) by (rewrite He; exact Hel).
  rewrite Hs, Ht in Hc. cbn in Hc.
  rewrite Ht in Hn. cbn in Hn.
  rewrite Hc, Hn in Ha. cbn in Ha. injection Ha as Ha.
  assert (W8 : wpm v == 8).
  { rewrite W, Pos by (rewrite E3; reflexivity). rewrite Hc, E3. reflexivity. }
  assert (A : accuracy v == 200 # 3) by (rewrite <- Ha; reflexivity).
  split; [exact F | split; [exact Hc | split; [exact E3 |]]].
  split; [rewrite W8; reflexivity | split; [exact W8 |]].
  split; [rewrite A; reflexivity | split; [exact A |]].
  split; [| split].
  - rewrite Ltime, (format_2f_comp _ _ E3). reflexivity.
  - rewrite Lwpm, (format_2f_comp _ _ W8). reflexivity.
  - rewrite Lacc, (format_2f_comp _ _ A). reflexivity.
Qed.

End ScenarioB.

Lemma finish_cat_cxt_witness :
  exists self' v,
    Finalized (fun _ => 103%Q) (running_tester "cat" "cxt" 100%Q) self' v /\
    correct_chars v = 2 /\
    wpm_label self' = "WPM: 8.00" /\
    acc_label self' = "Accuracy: 66.67%".
Proof.
  destruct (finish_cat_cxt (fun _ => 103%Q) (running_tester "cat" "cxt" 100%Q))
    as [self' [v [F [Hc [_ [_ [_ [_ [_ [_ [Hw Ha]]]]]]]]]]].
  - reflexivity.
  - reflexivity.
  - reflexivity.
  - exists self', v. split; [exact F | split; [exact Hc | split; [exact Hw | exact Ha]]].
Defined.

(** ** Key presses, runs and the "not started" prompt *)

Section Session.

Variable clock : nat -> Q.

Lemma on_key_press_idle_ignored (event : Event) (self : TypingTester) :
  running self = false -> String.length (char event) = 0 ->
  on_key_press clock event self = Ok self.
Proof.
  intros R C. unfold on_key_press. rewrite R, C. reflexivity.
Qed.

Lemma on_key_press_idle_start (event : Event) (self : TypingTester) :
  running self = false -> String.length (char event) <> 0 ->
  on_key_press clock event self =
  if String.length (sample self) <=? String.length (get_typed_text self)
  then finish clock (started clock self) else Ok (started clock self).
Proof.
  intros R C. unfold on_key_press. rewrite R.
  apply Nat.eqb_neq in C. rewrite C. reflexivity.
Qed.

Lemma on_key_press_running (event : Event) (self : TypingTester) :
  running self = true ->
  on_key_press clock event self =
  if String.length (sample self) <=? String.length (get_typed_text self)
  then finish clock self else Ok self.
Proof.
  intros R. unfold on_key_press. rewrite R. reflexivity.
Qed.

Lemma finish_start_time (self self' : TypingTester) :
  finish clock self = Ok self' -> start_time self' = start_time self.
Proof.
  intros H.
  destruct (running self) eqn:R; [|destruct (truthy (start_time self)) eqn:T].
  - destruct (finish_late clock self (or_introl R)) as [s [v [F [_ [_ [_ [S _]]]]]]].
    rewrite F in H. injection H as <-. exact S.
  - destruct (finish_late clock self (or_intror T)) as [s [v [F [_ [_ [_ [S _]]]]]]].
    rewrite F in H. injection H as <-. exact S.
  - rewrite (finish_early clock self R T) in H. injection H as <-. reflexivity.
Qed.

Lemma finish_sample (self self' : TypingTester) :
  finish clock self = Ok self' -> sample self' = sample self.
Proof.
  unfold finish.
  destruct (negb (running self) && negb (truthy (start_time self))).
  - intros H. injection H as <-. reflexivity.
  - cbn [time_time].
    destruct (finish_locals _ _) as [v|]; cbn [bind]; [|discriminate].
    intros H. injection H as <-. reflexivity.
Qed.

Lemma on_key_press_sample (event : Event) (self self' : TypingTester) :
  on_key_press clock event self = Ok self' -> sample self' = sample self.
Proof.
  destruct (running self) eqn:R.
  - rewrite (on_key_press_running event self R).
    destruct (_ <=? _).
    + apply finish_sample.
    + intros H. injection H as <-. reflexivity.
  - destruct (Nat.eq_dec (String.length (char event)) 0) as [C|C].
    + rewrite (on_key_press_idle_ignored event self R C).
      intros H. injection H as <-. reflexivity.
    + rewrite (on_key_press_idle_start event self R C).
      destruct (_ <=? _).
      * intros H. apply finish_sample in H. exact H.
      * intros H. injection H as <-. reflexivity.
Qed.

Lemma step_total (a : Action) (self : TypingTester) :
  exists self', step clock a self = Ok self'.
Proof.
  destruct a as [event | text | | | r]; simpl; eauto.
  - apply on_key_press_total.
  - apply finish_total.
Qed.

Lemma run_total (l : list Action) (self : TypingTester) :
  exists self', run clock l self = Ok self'.
Proof.
  revert self. induction l as [|a l IH]; intros self; simpl; [eauto|].
  destruct (step_total a self) as [s Hs]. rewrite Hs. simpl. apply IH.
Qed.

Hypothesis clock_nonzero : forall n, ~ (clock n == 0)%Q.

Lemma started_truthy (self : TypingTester) : truthy (start_time (started clock self)) = true.
Proof.
  apply truthy_Some. apply clock_nonzero.
Qed.

Lemma step_keeps_started (a : Action) (self self' : TypingTester) :
  same_test a = true ->
  truthy (start_time self) = true ->
  step clock a self = Ok self' ->
  truthy (start_time self') = true.
Proof.
  intros Ha T H. destruct a as [event | text | | | r]; try discriminate Ha; simpl in H.
  - destruct (running self) eqn:R.
    + rewrite (on_key_press_running event self R) in H.
      destruct (_ <=? _).
      * rewrite (finish_start_time _ _ H). exact T.
      * injection H as <-. exact T.
    + destruct (Nat.eq_dec (String.length (char event)) 0) as [C|C].
      * rewrite (on_key_press_idle_ignored event self R C) in H.
        injection H as <-. exact T.
      * rewrite (on_key_press_idle_start event self R C) in H.
        destruct (_ <=? _).
        -- rewrite (finish_start_time _ _ H). apply started_truthy.
        -- injection H as <-. apply started_truthy.
  - injection H as <-. exact T.
  - rewrite (finish_start_time _ _ H). exact T.
Qed.

Lemma run_keeps_started (l : list Action) (self self' : TypingTester) :
  forallb same_test l = true ->
  truthy (start_time self) = true ->
  run clock l self = Ok self' ->
  truthy (start_time self') = true.
Proof.
  revert self. induction l as [|a l IH]; intros self Hl T H; simpl in *.
  - injection H as <-. exact T.
  - apply andb_true_iff in Hl. destruct Hl as [Ha Hl].
    destruct (step clock a self) as [s|] eqn:Hs; simpl in H; [|discriminate].
    apply (IH s Hl); [|exact H].
    apply (step_keeps_started a self s Ha T Hs).
Qed.

Lemma first_key_starts (event : Event) (self self' : TypingTester) :
  running self = false -> String.length (char event) <> 0 ->
  on_key_press clock event self = Ok self' ->
  truthy (start_time self') = true.
Proof.
  intros R C H. rewrite (on_key_press_idle_start event self R C) in H.
  destruct (_ <=? _).
  - rewrite (finish_start_time _ _ H). apply started_truthy.
  - injection H as <-. apply started_truthy.
Qed.

End Session.

Section SessionClaims.

Variable clock : nat -> Q.

Open Scope Q_scope.

(** C2 (failing run). When [time.time()] reads 0.0 at the first key press,
    the key press is registered and sets [start_time], the first [finish]
    produces a result, and a repeated [finish] shows the "start typing first"
    prompt although typing has started: [finish] tests the truth value of
    [start_time], and 0.0 is false. *)
Lemma finish_repeated_at_zero_clock :
  exists s1 s2 v,
    on_key_press (clock_from 0) (mkEvent "T") (init 0) = Ok s1 /\
    running s1 = true /\
    start_time s1 = Some (clock_from 0 0) /\
    clock_from 0 0 == 0 /\
    Finalized (clock_from 0) s1 s2 v /\
    start_time s2 = Some (clock_from 0 0) /\
    NotStarted (clock_from 0) s2.
Proof.
  set (clk := clock_from 0).
  assert (R1 : running (started clk (init 0)) = true) by reflexivity.
  destruct (finish_late clk (started clk (init 0)) (or_introl R1)) as [s2 [v F]].
  exists (started clk (init 0)), s2, v.
  pose proof F as [_ [_ [_ [R [S _]]]]].
  split; [vm_compute; reflexivity | split; [exact R1 | split; [reflexivity |]]].
  split; [reflexivity | split; [exact F | split; [exact S |]]].
  apply finish_early; [exact R | rewrite S; reflexivity].
Qed.

(** The guard of [finish]: it shows the "start typing first" prompt exactly
    when [running] is false and [start_time] is false ([None] or 0.0), and
    otherwise produces a result.  When the clock never reads 0, after a
    registered key press every [finish] of the same test produces a result,
    a repeated [finish] included. *)
Lemma finish_guard :
  (forall self,
      NotStarted clock self <->
      running self = false /\
      (start_time self = None \/ exists t, start_time self = Some t /\ t == 0)) /\
  (forall self, NotStarted clock self \/ exists self' v, Finalized clock self self' v) /\
  ((forall n, ~ clock n == 0) ->
   forall self event,
     running self = false -> String.length (char event) <> 0%nat ->
     exists s1,
       on_key_press clock event self = Ok s1 /\
       forall l, forallb same_test l = true ->
         exists s s' v, run clock l s1 = Ok s /\ Finalized clock s s' v).
Proof.
  assert (Cases : forall self,
    (running self = false /\ truthy (start_time self) = false /\ NotStarted clock self) \/
    ((running self = true \/ truthy (start_time self) = true) /\
     exists self' v, Finalized clock self self' v)).
  { intros self. destruct (running self) eqn:R.
    - right. split; [left; reflexivity|]. apply finish_late. left. exact R.
    - destruct (truthy (start_time self)) eqn:T.
      + right. split; [right; reflexivity|]. apply finish_late. right. exact T.
      + left. split; [reflexivity | split; [reflexivity|]].
        apply finish_early; assumption. }
  split; [| split].
  - intros self. rewrite <- truthy_false. split.
    + intros N. destruct (Cases self) as [[R [T _]] | [_ [s [v F]]]].
      * split; assumption.
      * exfalso. exact (Finalized_not_NotStarted clock _ _ _ F N).
    + intros [R T]. apply finish_early; assumption.
  - intros self. destruct (Cases self) as [[_ [_ N]] | [_ F]]; [left | right]; assumption.
  - intros Hclock self event R C.
    destruct (on_key_press_total clock event self) as [s1 H1].
    exists s1. split; [exact H1|].
    intros l Hl. destruct (run_total clock l s1) as [s Hs].
    pose proof (first_key_starts clock Hclock event self s1 R C H1) as T1.
    pose proof (run_keeps_started clock Hclock l s1 s Hl T1 Hs) as T.
    destruct (finish_late clock s (or_intror T)) as [s' [v F]].
    exists s, s', v. split; assumption.
Qed.

(** C6. On every key event that arrives while [running] is true,
    [on_key_press] runs [finish] to its end as soon as the typed text is at
    least as long as the passage, whatever the characters are; in particular
    with a passage of length 10 and 10 typed characters.  With a shorter typed
    text the object is left as it is. *)
Theorem on_key_press_auto_finish (event : Event) (self : TypingTester) :
  running self = true ->
  ((String.length (sample self) <= String.length (get_typed_text self))%nat ->
   exists self' v,
     on_key_press clock event self = Ok self' /\ Finalized clock self self' v) /\
  (String.length (sample self) = 10%nat ->
   String.length (get_typed_text self) = 10%nat ->
   exists self' v,
     on_key_press clock event self = Ok self' /\ Finalized clock self self' v) /\
  ((String.length (get_typed_text self) < String.length (sample self))%nat ->
   on_key_press clock event self = Ok self).
Proof.
  intros R. rewrite (on_key_press_running clock event self R).
  assert (A : (String.length (sample self) <= String.length (get_typed_text self))%nat ->
              exists self' v,
                (if String.length (sample self) <=? String.length (get_typed_text self)
                 then finish clock self else Ok self) = Ok self' /\
                Finalized clock self self' v).
  { intros L. apply Nat.leb_le in L. rewrite L.
    destruct (finish_late clock self (or_introl R)) as [s' [v F]].
    exists s', v. split; [apply F | exact F]. }
  split; [exact A | split].
  - intros Hs Ht. apply A. lia.
  - intros L. apply Nat.leb_gt in L. rewrite L. reflexivity.
Qed.

(** C8. [reset], from any state and with or without clearing the input,
    sets [start_time] and [end_time] to [None] and [running] to false, so that
    the object is idle again, and leaves [sample] as it was.  Of all the
    actions only choosing a new text changes [sample]. *)
Theorem reset_keeps_sample (clear_text : bool) (self : TypingTester) :
  start_time (reset clear_text self) = None /\
  end_time (reset clear_text self) = None /\
  running (reset clear_text self) = false /\
  sample (reset clear_text self) = sample self /\
  sample_text (reset clear_text self) = sample_text self /\
  NotStarted clock (reset clear_text self) /\
  (forall a self', step clock a self = Ok self' ->
                   (forall r, a <> ClickNewText r) -> sample self' = sample self) /\
  (forall r, sample (new_text r self) = random_choice r SAMPLE_TEXTS /\
             In (sample (new_text r self)) SAMPLE_TEXTS).
Proof.
  assert (S : sample (reset clear_text self) = sample self).
  { unfold reset. destruct clear_text; reflexivity. }
  assert (T : start_time (reset clear_text self) = None).
  { unfold reset. destruct clear_text; reflexivity. }
  assert (R : running (reset clear_text self) = false).
  { unfold reset. destruct clear_text; reflexivity. }
  split; [exact T | split; [destruct clear_text; reflexivity | split; [exact R |]]].
  split; [exact S | split; [destruct clear_text; reflexivity | split; [| split]]].
  - apply finish_early; [exact R | rewrite T; reflexivity].
  - intros a self' H N. destruct a as [event | text | | | r]; simpl in H.
    + apply (on_key_press_sample clock event self self' H).
    + injection H as <-. reflexivity.
    + apply (finish_sample clock self self' H).
    + injection H as <-. destruct self; reflexivity.
    + exfalso. apply (N r). reflexivity.
  - intros r.
    assert (E : sample (new_text r self) = random_choice r SAMPLE_TEXTS) by reflexivity.
    split; [exact E|]. rewrite E. unfold random_choice.
    apply nth_In. apply Nat.mod_upper_bound. discriminate.
Qed.

End SessionClaims.

(** ** The typed text *)

Section TypedText.

Variable clock : nat -> Q.

Lemma finish_locals_typed (s1 s2 : TypingTester) (now : Q) :
  start_time s1 = start_time s2 -> sample s1 = sample s2 ->
  get_typed_text s1 = get_typed_text s2 ->
  finish_locals s1 now = finish_locals s2 now.
Proof.
  intros H1 H2 H3. unfold finish_locals. rewrite H1, H2, H3. reflexivity.
Qed.

Lemma finish_typed (self : TypingTester) (raw1 raw2 : string) :
  rstrip newline raw1 = rstrip newline raw2 ->
  finish clock (set_input_entry raw1 self) =
  map_result (set_input_entry raw1) (finish clock (set_input_entry raw2 self)).
Proof.
  intros H. destruct self as [st en ru sa sx inp tl wl al log n].
  unfold finish, set_input_entry, time_time, set_end_time.
  cbn [start_time end_time running sample sample_text input_entry time_label
       wpm_label acc_label showinfo_log time_calls].
  destruct (negb ru && negb (truthy st)); [reflexivity|].
  match goal with
  | |- bind (finish_locals ?a ?n) _ = map_result _ (bind (finish_locals ?b ?n) _) =>
      rewrite (finish_locals_typed a b n)
  end; try reflexivity.
  - destruct (finish_locals _ _); reflexivity.
  - rewrite !get_typed_text_rstrip. exact H.
Qed.

Lemma on_key_press_typed (event : Event) (self : TypingTester) (raw1 raw2 : string) :
  rstrip newline raw1 = rstrip newline raw2 ->
  on_key_press clock event (set_input_entry raw1 self) =
  map_result (set_input_entry raw1) (on_key_press clock event (set_input_entry raw2 self)).
Proof.
  intros H.
  assert (G : forall s, get_typed_text (set_input_entry raw1 s) =
                        get_typed_text (set_input_entry raw2 s)).
  { intros s. rewrite !get_typed_text_rstrip. exact H. }
  unfold on_key_press.
  change (running (set_input_entry raw1 self)) with (running self).
  change (running (set_input_entry raw2 self)) with (running self).
  destruct (negb (running self)); [destruct (String.length (char event) =? 0)|].
  - reflexivity.
  - cbn [time_time].
    match goal with
    | |- (if _ <=? String.length (get_typed_text ?a) then _ else _) =
         map_result _ (if _ <=? String.length (get_typed_text ?b) then _ else _) =>
        change a with (set_input_entry raw1 (started clock self));
        change b with (set_input_entry raw2 (started clock self))
    end.
    rewrite G.
    change (sample (set_input_entry raw1 (started clock self)))
      with (sample (set_input_entry raw2 (started clock self))).
    destruct (_ <=? _); [apply finish_typed; exact H | reflexivity].
  - rewrite G.
    change (sample (set_input_entry raw1 self)) with (sample (set_input_entry raw2 self)).
    destruct (_ <=? _); [apply finish_typed; exact H | reflexivity].
Qed.

(** C9. The typed text that [finish] scores and whose length
    [on_key_press] compares with the passage is the text of the input widget
    with every trailing newline removed and nothing else: the input is the
    typed text followed by newlines only, and the typed text does not end in
    a newline.  For every input, [finish] and [on_key_press] compute the same
    from it as from the input with its trailing newlines stripped, and adding
    newlines at the end changes nothing. *)
Theorem get_typed_text_strips_newlines (self : TypingTester) (raw : string) (k : nat) :
  let stripped := rstrip newline raw in
  get_typed_text (set_input_entry raw self) = stripped /\
  ends_in_newline stripped = false /\
  get_typed_text (set_input_entry (raw ++ newlines k) self) = stripped /\
  get_typed_text (set_input_entry stripped self) = stripped /\
  (forall now,
      finish_locals (set_input_entry raw self) now =
      finish_locals (set_input_entry stripped self) now) /\
  finish clock (set_input_entry raw self) =
  map_result (set_input_entry raw) (finish clock (set_input_entry stripped self)) /\
  (forall event,
      on_key_press clock event (set_input_entry raw self) =
      map_result (set_input_entry raw)
        (on_key_press clock event (set_input_entry stripped self))) /\
  (exists n, raw = stripped ++ newlines n).
Proof.
  intros stripped. unfold stripped.
  pose proof (rstrip_idempotent newline raw) as I.
  split; [apply get_typed_text_rstrip | split; [apply rstrip_no_trailing | split]].
  - rewrite get_typed_text_rstrip. apply rstrip_app_newlines.
  - split; [rewrite get_typed_text_rstrip; exact I | split; [| split]].
    + intros now. apply finish_locals_typed; try reflexivity.
      rewrite !get_typed_text_rstrip. symmetry. exact I.
    + apply finish_typed. symmetry. exact I.
    + split; [intros event; apply on_key_press_typed; symmetry; exact I |].
      apply rstrip_suffix.
Qed.

End TypedText.

Lemma get_typed_text_strips_newlines_witness :
  get_typed_text
    (set_input_entry ("ab" ++ newlines 1 ++ "cd" ++ newlines 2)
       (running_tester "cat" "" 100)) = "ab" ++ newlines 1 ++ "cd" /\
  finish_locals
    (set_input_entry ("ab" ++ newlines 1 ++ "cd" ++ newlines 2)
       (running_tester "cat" "" 100)) 103 =
  finish_locals
    (set_input_entry ("ab" ++ newlines 1 ++ "cd") (running_tester "cat" "" 100)) 103.
Proof.
  destruct (get_typed_text_strips_newlines (fun _ => 103%Q) (running_tester "cat" "" 100)
              ("ab" ++ newlines 1 ++ "cd" ++ newlines 2) 0) as [T [_ [_ [_ [F _]]]]].
  split; [exact T | exact (F 103%Q)].
Defined.

(** ** Concrete runs *)

Example finish_guard_run :
  exists s1,
    on_key_press (clock_from 1) (mkEvent "T") (init 0) = Ok s1 /\
    exists s s' v,
      run (clock_from 1) [ClickFinish; Edit "The"; ClickFinish] s1 = Ok s /\
      Finalized (clock_from 1) s s' v.
Proof.
  destruct (finish_guard (clock_from 1)) as [_ [_ H]].
  assert (Hclock : forall n, ~ (clock_from 1 n == 0)%Q).
  { intros n E. unfold clock_from in E. pose proof (of_int_nonneg n). lra. }
  destruct (H Hclock (init 0) (mkEvent "T")) as [s1 [H1 Hl]].
  - reflexivity.
  - simpl. lia.
  - exists s1. split; [exact H1|].
    apply Hl. reflexivity.
Qed.

Lemma on_key_press_auto_finish_witness :
  exists self' v,
    on_key_press (fun _ => 103%Q) (mkEvent "j") (running_tester "0123456789" "abcdefghij" 100)
      = Ok self' /\
    Finalized (fun _ => 103%Q) (running_tester "0123456789" "abcdefghij" 100) self' v.
Proof.
  destruct (on_key_press_auto_finish (fun _ => 103%Q) (mkEvent "j")
              (running_tester "0123456789" "abcdefghij" 100)) as [_ [H _]].
  - reflexivity.
  - apply H; reflexivity.
Defined.

Lemma reset_keeps_sample_witness :
  exists self',
    step (fun _ => 103%Q) ClickFinish (running_tester "cat" "ca" 100) = Ok self' /\
    sample self' = "cat" /\
    sample (reset true (running_tester "cat" "ca" 100)) = "cat".
Proof.
  destruct (reset_keeps_sample (fun _ => 103%Q) true (running_tester "cat" "ca" 100))
    as [_ [_ [_ [S [_ [_ [Fr _]]]]]]].
  eexists. split; [vm_compute; reflexivity | split; [| exact S]].
  apply (Fr ClickFinish); [vm_compute; reflexivity | intros r H; discriminate H].
Defined.

Example format_2f_examples :
  format_2f 8 = "8.00" /\ format_2f (200 # 3) = "66.67" /\
  format_2f (- (1 # 1000)) = "-0.00" /\
  format_2f (1 # 8) = "0.12" /\ format_2f (3 # 8) = "0.38".
Proof. repeat split. Qed.

Example rstrip_example :
  rstrip newline ("a" ++ newlines 1 ++ "b" ++ newlines 2) = "a" ++ newlines 1 ++ "b".
Proof. reflexivity. Qed.

(** Scenario A of the specification: "cat" typed correctly in 6 seconds. *)
Example finish_cat_cat :
  exists self',
    finish (fun _ => 106%Q) (running_tester "cat" "cat" 100) = Ok self' /\
    time_label self' = "Time: 6.00 s" /\
    wpm_label self' = "WPM: 6.00" /\
    acc_label self' = "Accuracy: 100.00%" /\
    running self' = false.
Proof.
  eexists. split; [vm_compute; reflexivity | repeat split].
Qed.

(** Scenario C of the specification: [finish] before any key press. *)
Example finish_before_typing (r : nat) (clock : nat -> Q) : NotStarted clock (init r).
Proof.
  apply finish_early; reflexivity.
Qed.

(** * Further properties of the callbacks *)

(** ** What [finish] leaves alone *)

Section FinishFrame.

Variable clock : nat -> Q.

Lemma finish_frame (self self' : TypingTester) :
  finish clock self = Ok self' ->
  sample self' = sample self /\ sample_text self' = sample_text self /\
  input_entry self' = input_entry self /\ start_time self' = start_time self.
Proof.
  unfold finish.
  destruct (negb (running self) && negb (truthy (start_time self))).
  - intros H. injection H as <-. repeat split.
  - cbn [time_time].
    destruct (finish_locals _ _) as [v|]; cbn [bind]; [|discriminate].
    intros H. injection H as <-. repeat split.
Qed.

Lemma finish_end (self self' : TypingTester) :
  running self = true \/ truthy (start_time self) = true ->
  finish clock self = Ok self' ->
  time_calls self' = S (time_calls self) /\
  end_time self' = Some (clock (time_calls self)) /\
  running self' = false.
Proof.
  intros G. unfold finish.
  assert (E : negb (running self) && negb (truthy (start_time self)) = false).
  { destruct G as [-> | ->]; [reflexivity | apply andb_false_r]. }
  rewrite E. cbn [time_time].
  destruct (finish_locals _ _) as [v|]; cbn [bind]; [|discriminate].
  intros H. injection H as <-. repeat split.
Qed.

End FinishFrame.

(** ** Key presses *)

Section KeyPresses.

Variable clock : nat -> Q.

(** X1. While no test is running, key events that carry no character (pure
    modifier keys) change nothing, however many arrive and whatever the input
    widget holds: the timer is not started and nothing is finished. *)
Theorem idle_ignores_charless_keys (l : list Event) (self : TypingTester) :
  running self = false ->
  (forall e, In e l -> String.length (char e) = 0) ->
  run clock (map KeyPress l) self = Ok self.
Proof.
  intros R. induction l as [|e l IH]; intros H; simpl; [reflexivity|].
  rewrite (on_key_press_idle_ignored clock e self R) by (apply H; left; reflexivity).
  simpl. apply IH. intros e' He'. apply H. right. exact He'.
Qed.

(** X2. The first key press that carries a character, on a tester that is not
    running and whose typed text is shorter than the passage, starts the test:
    it reads the clock once, stores the reading in [start_time], sets
    [running], zeroes the three labels and touches nothing else. *)
Theorem first_key_starts_timer (event : Event) (self : TypingTester) :
  running self = false ->
  String.length (char event) <> 0 ->
  String.length (get_typed_text self) < String.length (sample self) ->
  exists self',
    on_key_press clock event self = Ok self' /\
    start_time self' = Some (clock (time_calls self)) /\
    running self' = true /\
    time_calls self' = S (time_calls self) /\
    time_label self' = "Time: 0.00 s" /\
    wpm_label self' = "WPM: 0.00" /\
    acc_label self' = "Accuracy: 0.00%" /\
    end_time self' = end_time self /\
    sample self' = sample self /\
    sample_text self' = sample_text self /\
    input_entry self' = input_entry self /\
    showinfo_log self' = showinfo_log self.
Proof.
  intros R C L. exists (started clock self).
  rewrite (on_key_press_idle_start clock event self R C).
  apply Nat.leb_gt in L. rewrite L. repeat split.
Qed.

(** X3. A key press that carries a character, on a tester that is not running
    but whose typed text is already as long as the passage, starts the test
    and finishes it in the same call: two clock readings, [start_time] the
    first and [end_time] the second, and a result whose elapsed time is their
    difference (when the first reading is not 0). *)
Theorem key_on_full_text_starts_and_finishes (event : Event) (self : TypingTester) :
  running self = false ->
  String.length (char event) <> 0 ->
  String.length (sample self) <= String.length (get_typed_text self) ->
  exists self' v,
    on_key_press clock event self = Ok self' /\
    Finalized clock (started clock self) self' v /\
    start_time self' = Some (clock (time_calls self)) /\
    end_time self' = Some (clock (S (time_calls self))) /\
    running self' = false /\
    time_calls self' = S (S (time_calls self)) /\
    (~ (clock (time_calls self) == 0)%Q ->
     elapsed v = (clock (S (time_calls self)) - clock (time_calls self))%Q).
Proof.
  intros R C L.
  assert (R1 : running (started clock self) = true) by reflexivity.
  destruct (finish_late clock (started clock self) (or_introl R1)) as [self' [v F]].
  exists self', v.
  rewrite (on_key_press_idle_start clock event self R C).
  apply Nat.leb_le in L. rewrite L.
  pose proof F as [Hf [Hv [He [Hr [Hs _]]]]].
  destruct (finish_end clock _ _ (or_introl R1) Hf) as [Ht _].
  split; [exact Hf | split; [exact F | split; [exact Hs | split; [exact He |]]]].
  split; [exact Hr | split; [exact Ht |]].
  intros Hz. apply finish_locals_inv in Hv. destruct Hv as [Hel _].
  rewrite Hel. apply (compute_elapsed_started _ _ Hz).
Qed.

(** X4. [on_key_press] never shows the "start typing first" prompt: when
    it returns it has shown either no dialog at all or exactly one "Results"
    dialog, after the ones shown before. *)
Theorem on_key_press_never_prompts (event : Event) (self self' : TypingTester) :
  on_key_press clock event self = Ok self' ->
  showinfo_log self' = showinfo_log self \/
  exists v, showinfo_log self' =
            (showinfo_log self ++ [("Results", results_message v)])%list.
Proof.
  intros Hret. revert Hret.
  assert (A : forall s, running s = true ->
                        exists s' v, finish clock s = Ok s' /\
                          showinfo_log s' =
                          (showinfo_log s ++ [("Results", results_message v)])%list).
  { intros s Rs. destruct (finish_late clock s (or_introl Rs)) as [s' [v F]].
    exists s', v. split; apply F. }
  destruct (running self) eqn:R.
  - rewrite (on_key_press_running clock event self R).
    destruct (_ <=? _).
    + destruct (A self R) as [s' [v [H1 H2]]]. rewrite H1.
      intros E. injection E as <-. right. exists v. exact H2.
    + intros E. injection E as <-. left. reflexivity.
  - destruct (Nat.eq_dec (String.length (char event)) 0) as [C|C].
    + rewrite (on_key_press_idle_ignored clock event self R C).
      intros E. injection E as <-. left. reflexivity.
    + rewrite (on_key_press_idle_start clock event self R C).
      destruct (_ <=? _).
      * destruct (A (started clock self) eq_refl) as [s' [v [H1 H2]]]. rewrite H1.
        intros E. injection E as <-. right. exists v. exact H2.
      * intros E. injection E as <-. left. reflexivity.
Qed.

(** X5. A key press changes [start_time] only when the tester is not running
    and the key carries a character, and then the new value is the clock
    reading: a running timer is never restarted by typing. *)
Theorem start_time_changes_only_on_start (event : Event) (self self' : TypingTester) :
  on_key_press clock event self = Ok self' ->
  start_time self' <> start_time self ->
  running self = false /\
  String.length (char event) <> 0 /\
  start_time self' = Some (clock (time_calls self)).
Proof.
  intros H N. destruct (running self) eqn:R.
  - exfalso. apply N. rewrite (on_key_press_running clock event self R) in H.
    destruct (_ <=? _).
    + apply (finish_frame clock _ _ H).
    + injection H as <-. reflexivity.
  - destruct (Nat.eq_dec (String.length (char event)) 0) as [C|C].
    + exfalso. apply N.
      rewrite (on_key_press_idle_ignored clock event self R C) in H.
      injection H as <-. reflexivity.
    + split; [reflexivity | split; [exact C|]].
      rewrite (on_key_press_idle_start clock event self R C) in H.
      destruct (_ <=? _).
      * destruct (finish_frame clock _ _ H) as [_ [_ [_ S]]]. rewrite S. reflexivity.
      * injection H as <-. reflexivity.
Qed.

End KeyPresses.

Lemma idle_ignores_charless_keys_witness :
  run (clock_from 1) (map KeyPress [mkEvent ""; mkEvent ""])
      (set_input_entry "The quick brown fox jumps over the lazy dog. And more." (init 0)) =
  Ok (set_input_entry "The quick brown fox jumps over the lazy dog. And more." (init 0)).
Proof.
  apply (idle_ignores_charless_keys (clock_from 1)).
  - reflexivity.
  - intros e [<- | [<- | []]]; reflexivity.
Defined.

Lemma first_key_starts_timer_witness :
  exists self',
    on_key_press (clock_from 7) (mkEvent "T") (init 0) = Ok self' /\
    start_time self' = Some (clock_from 7 0) /\
    running self' = true.
Proof.
  destruct (first_key_starts_timer (clock_from 7) (mkEvent "T") (init 0))
    as [self' [H [S [R _]]]].
  - reflexivity.
  - simpl. lia.
  - vm_compute. lia.
  - exists self'. split; [exact H | split; [exact S | exact R]].
Defined.

Lemma key_on_full_text_starts_and_finishes_witness :
  exists self',
    on_key_press (clock_from 7) (mkEvent "x")
      (set_input_entry "The quick brown fox jumps over the lazy dog." (init 0)) = Ok self' /\
    start_time self' = Some (clock_from 7 0) /\
    end_time self' = Some (clock_from 7 1) /\
    running self' = false.
Proof.
  destruct (key_on_full_text_starts_and_finishes (clock_from 7) (mkEvent "x")
              (set_input_entry "The quick brown fox jumps over the lazy dog." (init 0)))
    as [self' [v [H [_ [S [E [R _]]]]]]].
  - reflexivity.
  - simpl. lia.
  - vm_compute. lia.
  - exists self'. split; [exact H | split; [exact S | split; [exact E | exact R]]].
Defined.

Lemma on_key_press_never_prompts_witness :
  showinfo_log (started (clock_from 7) (init 0)) = showinfo_log (init 0) \/
  exists v, showinfo_log (started (clock_from 7) (init 0)) =
            (showinfo_log (init 0) ++ [("Results", results_message v)])%list.
Proof.
  apply (on_key_press_never_prompts (clock_from 7) (mkEvent "T") (init 0)).
  vm_compute. reflexivity.
Defined.

Lemma start_time_changes_only_on_start_witness :
  running (init 0) = false /\
  start_time (started (clock_from 7) (init 0)) = Some (clock_from 7 0).
Proof.
  destruct (start_time_changes_only_on_start (clock_from 7) (mkEvent "T") (init 0)
              (started (clock_from 7) (init 0))) as [R [_ S]].
  - vm_compute. reflexivity.
  - intros H. discriminate H.
  - split; [exact R | exact S].
Defined.

(** ** Results of [finish] *)

Section FinishResults.

Variable clock : nat -> Q.

Open Scope Q_scope.

Lemma string_app_assoc (a b c : string) : ((a ++ b) ++ c = a ++ (b ++ c))%string.
Proof.
  induction a as [|x a IH]; simpl; [reflexivity | rewrite IH; reflexivity].
Qed.

Lemma string_app_length (a b : string) :
  String.length (a ++ b) = (String.length a + String.length b)%nat.
Proof.
  induction a as [|x a IH]; simpl; [reflexivity | rewrite IH; reflexivity].
Qed.

(** X6. A call of [finish] that returns has shown exactly one dialog after
    the earlier ones.  It is the "Info" prompt, with nothing else changed,
    when the call returned early; otherwise it is the "Results" dialog, and
    its message is the text of the three labels, one per line. *)
Theorem finish_shows_one_dialog (self self' : TypingTester) :
  finish clock self = Ok self' ->
  exists title message,
    showinfo_log self' = (showinfo_log self ++ [(title, message)])%list /\
    ((title = "Info"%string /\ message = not_started_message /\
      self' = showinfo "Info" not_started_message self) \/
     (title = "Results"%string /\
      message = (time_label self' ++ String newline
                   (wpm_label self' ++ String newline (acc_label self')))%string)).
Proof.
  intros Hret.
  destruct (running self) eqn:R; [|destruct (truthy (start_time self)) eqn:T].
  1,2: match goal with
       | |- _ => destruct (finish_late clock self
                   ltac:(first [left; exact R | right; exact T])) as [s' [v F]]
       end;
       destruct F as [Hf [_ [_ [_ [_ [Lt [Lw [La Ll]]]]]]]];
       rewrite Hf in Hret; injection Hret as <-;
       exists "Results"%string, (results_message v);
       (split; [exact Ll | right; split; [reflexivity|]]);
       rewrite Lt, Lw, La; unfold results_message;
       rewrite !string_app_assoc; reflexivity.
  rewrite (finish_early clock self R T) in Hret. injection Hret as <-.
  exists "Info"%string, not_started_message.
  split; [reflexivity | left]. repeat split.
Qed.

(** X7. With an empty typed text (an input widget that holds nothing but
    newlines) a [finish] that computes its results computes no correct
    character, a WPM of 0 and an accuracy of 0.0, and displays "0.00" for
    both. *)
Theorem finish_empty_input (self : TypingTester) (now : Q) (v : Locals) :
  get_typed_text self = ""%string ->
  finish_locals self now = Ok v ->
  correct_chars v = 0%nat /\ total_typed v = 0%nat /\
  wpm v == 0 /\ accuracy v = 0 /\
  format_2f (wpm v) = "0.00"%string /\ format_2f (accuracy v) = "0.00"%string.
Proof.
  intros Ht Hv.
  destruct (finish_wpm_value _ _ _ Hv) as [Pm [W _]].
  destruct (finish_locals_inv _ _ _ Hv) as [_ [_ [Hc [Hn [_ [_ Ha]]]]]].
  rewrite Ht in Hc, Hn. cbn in Hc, Hn. rewrite Hc, Hn in Ha. cbn in Ha.
  injection Ha as Ha.
  assert (W0 : wpm v == 0).
  { rewrite W, Hc. unfold Qdiv. change (of_int 0) with 0. ring. }
  split; [exact Hc | split; [exact Hn | split; [exact W0 |]]].
  split; [symmetry; exact Ha | split].
  - rewrite (format_2f_comp _ _ W0). reflexivity.
  - rewrite <- Ha. reflexivity.
Qed.

Lemma of_int_inj (n m : nat) : of_int n == of_int m -> n = m.
Proof.
  unfold of_int. intros H. apply Nat2Z.inj. apply inject_Z_injective. exact H.
Qed.

Lemma count_loop_full_match (sample typed : string) (i : nat) :
  count_loop sample i typed 0 = String.length typed ->
  forall j, (j < String.length typed)%nat ->
            String.get (i + j) sample = String.get j typed.
Proof.
  revert i. induction typed as [|ch rest IH]; intros i H j Hj; simpl in Hj; [lia|].
  simpl in H. rewrite count_loop_acc in H.
  pose proof (count_loop_le_typed sample rest (S i)) as B.
  destruct ((i <? String.length sample)%nat && char_is ch (index sample i)) eqn:E;
    [|lia].
  apply andb_true_iff in E. destruct E as [_ E]. unfold char_is, index in E.
  destruct (String.get i sample) as [c|] eqn:G; [|discriminate].
  apply Ascii.eqb_eq in E. subst c.
  destruct j as [|j]; simpl.
  - rewrite Nat.add_0_r. exact G.
  - rewrite Nat.add_succ_r. apply (IH (S i)); lia.
Qed.

Lemma get_prefix (t s : string) :
  (forall j, (j < String.length t)%nat -> String.get j s = String.get j t) ->
  String.prefix t s = true.
Proof.
  revert s. induction t as [|a t IH]; intros s H.
  - destruct s; reflexivity.
  - pose proof (H 0%nat ltac:(simpl; lia)) as H0.
    destruct s as [|b s]; simpl in H0; [discriminate|].
    injection H0 as ->. simpl.
    destruct (ascii_dec a a) as [_|N]; [|contradiction].
    apply IH. intros j Hj. apply (H (S j)). simpl. lia.
Qed.

(** X8. The accuracy computed by [finish] is 100 exactly when the typed text
    is not empty and is a prefix of the passage. *)
Theorem finish_accuracy_100_iff_prefix (self : TypingTester) (now : Q) :
  exists v,
    finish_locals self now = Ok v /\
    (accuracy v == 100 <->
     get_typed_text self <> ""%string /\
     String.prefix (get_typed_text self) (sample self) = true).
Proof.
  destruct (finish_locals_total self now) as [v Hv]. exists v.
  split; [exact Hv|].
  destruct (finish_locals_inv _ _ _ Hv) as [_ [_ [Hc [Hn [_ [_ Ha]]]]]].
  destruct (compute_accuracy_ok (correct_chars v) (total_typed v)) as [a [Ha' [Pos Zero]]].
  rewrite Ha in Ha'. injection Ha' as <-.
  set (t := get_typed_text self) in *.
  destruct t as [|ch rest] eqn:Et.
  - rewrite (Zero Hn). split; [intros H; discriminate H | intros [N _]; contradiction].
  - assert (Hpos : (0 < total_typed v)%nat) by (rewrite Hn; simpl; lia).
    rewrite (Pos Hpos).
    pose proof (of_int_pos _ Hpos) as Pn.
    assert (Eq : of_int (correct_chars v) / of_int (total_typed v) * 100 == 100 <->
                 correct_chars v = total_typed v).
    { split.
      - intros H. apply of_int_inj.
        assert (E : of_int (correct_chars v) ==
                    of_int (correct_chars v) / of_int (total_typed v) * 100
                    * (of_int (total_typed v) / 100)) by (field; lra).
        rewrite E, H. field.
      - intros ->. field. lra. }
    rewrite Eq, Hc, Hn. split.
    + intros H. split; [discriminate|].
      apply get_prefix. intros j Hj.
      apply (count_loop_full_match (sample self) _ 0 H j Hj).
    + intros [_ H]. apply count_loop_all_match.
      intros j Hj. change (0 + j)%nat with j. apply prefix_get; assumption.
Qed.

Lemma count_loop_app (sample t u : string) (i c : nat) :
  count_loop sample i (t ++ u) c =
  count_loop sample (i + String.length t) u (count_loop sample i t c).
Proof.
  revert i c. induction t as [|ch t IH]; intros i c; simpl.
  - rewrite Nat.add_0_r. reflexivity.
  - rewrite IH.
    replace (i + S (String.length t))%nat with (S i + String.length t)%nat by lia.
    reflexivity.
Qed.

(** X9. Typing on never lowers the count of correct characters: the count for
    a text [t] followed by [u] is the count for [t] plus the matches of [u]
    at the positions after [t]; and once [t] is as long as the passage,
    whatever follows adds nothing. *)
Theorem correct_chars_append (sample t u : string) :
  count_loop sample 0 (t ++ u) 0 =
    (count_loop sample 0 t 0 + count_loop sample (String.length t) u 0)%nat /\
  (count_loop sample 0 t 0 <= count_loop sample 0 (t ++ u) 0)%nat /\
  ((String.length sample <= String.length t)%nat ->
   count_loop sample 0 (t ++ u) 0 = count_loop sample 0 t 0).
Proof.
  assert (E : count_loop sample 0 (t ++ u) 0 =
              (count_loop sample 0 t 0 + count_loop sample (String.length t) u 0)%nat).
  { rewrite count_loop_app, count_loop_acc. reflexivity. }
  split; [exact E | split; [lia|]].
  intros L. pose proof (count_loop_le_sample sample u (String.length t)). lia.
Qed.

(** X10. The WPM that [finish] computes is never negative, not even when
    the clock has stepped backwards and the elapsed time is negative. *)
Theorem finish_wpm_nonneg (self : TypingTester) (now : Q) (v : Locals) :
  finish_locals self now = Ok v -> 0 <= wpm v.
Proof.
  intros Hv.
  destruct (finish_wpm_value _ _ _ Hv) as [Pm [W _]].
  pose proof (of_int_nonneg (correct_chars v)) as Pc.
  rewrite W. apply Qle_shift_div_l; [exact Pm|].
  apply Qle_shift_div_l; [reflexivity | lra].
Qed.

(** X11. A second [finish] right after a first one that produced a result
    produces a result again (provided [start_time] is not 0): it keeps
    [start_time], reads the clock anew for [end_time] and the elapsed time,
    and recomputes the same counts and accuracy from the unchanged text. *)
Theorem finish_again_recomputes (self self' : TypingTester) (v : Locals) :
  Finalized clock self self' v ->
  truthy (start_time self) = true ->
  exists self'' v',
    Finalized clock self' self'' v' /\
    start_time self'' = start_time self /\
    end_time self'' = Some (clock (S (time_calls self))) /\
    elapsed v' = compute_elapsed (start_time self) (clock (S (time_calls self))) /\
    typed v' = typed v /\ correct_chars v' = correct_chars v /\
    accuracy v' = accuracy v.
Proof.
  intros F T. pose proof F as [Hf [Hv [_ [_ [Hs _]]]]].
  destruct (finish_frame clock _ _ Hf) as [Fs [_ [Fi _]]].
  destruct (finish_end clock _ _ (or_intror T) Hf) as [Ft _].
  assert (T' : truthy (start_time self') = true) by (rewrite Hs; exact T).
  destruct (finish_late clock self' (or_intror T')) as [self'' [v' F']].
  exists self'', v'.
  pose proof F' as [_ [Hv' [He' [_ [Hs' _]]]]].
  rewrite Ft in He', Hv'.
  assert (G : get_typed_text self' = get_typed_text self).
  { unfold get_typed_text. rewrite Fi. reflexivity. }
  destruct (finish_locals_inv _ _ _ Hv) as [_ [Ht [Hc [Hn [_ [_ Ha]]]]]].
  destruct (finish_locals_inv _ _ _ Hv') as [Hel' [Ht' [Hc' [Hn' [_ [_ Ha']]]]]].
  rewrite G in Ht', Hc', Hn'. rewrite Fs in Hc'. rewrite Hs in Hel'.
  assert (Ec : correct_chars v' = correct_chars v) by congruence.
  assert (En : total_typed v' = total_typed v) by congruence.
  rewrite Ec, En, Ha in Ha'. injection Ha' as Ha'.
  split; [exact F' | split; [congruence | split; [exact He' | split; [exact Hel' |]]]].
  split; [congruence | split; [exact Ec | symmetry; exact Ha']].
Qed.

End FinishResults.

Lemma finish_shows_one_dialog_witness :
  exists self' title message,
    finish (fun _ => 103%Q) (running_tester "cat" "cxt" 100) = Ok self' /\
    showinfo_log self' = [(title, message)] /\
    title = "Results".
Proof.
  destruct (finish_total (fun _ => 103%Q) (running_tester "cat" "cxt" 100)) as [self' H].
  destruct (finish_shows_one_dialog (fun _ => 103%Q) _ _ H)
    as [title [message [L [[T _] | [T _]]]]].
  - exfalso. vm_compute in H. injection H as <-. rewrite T in L. discriminate L.
  - exists self', title, message. split; [exact H | split; [exact L | exact T]].
Defined.

Lemma finish_empty_input_witness :
  exists v,
    finish_locals (running_tester "cat" (newlines 2) 100) 103 = Ok v /\
    correct_chars v = 0 /\ accuracy v = 0%Q.
Proof.
  destruct (finish_locals_total (running_tester "cat" (newlines 2) 100) 103) as [v Hv].
  destruct (finish_empty_input (running_tester "cat" (newlines 2) 100) 103 v)
    as [Hc [_ [_ [Ha _]]]].
  - reflexivity.
  - exact Hv.
  - exists v. split; [exact Hv | split; [exact Hc | exact Ha]].
Defined.

Lemma correct_chars_append_witness :
  count_loop "cat" 0 ("cat" ++ "alog") 0 = count_loop "cat" 0 "cat" 0.
Proof.
  destruct (correct_chars_append "cat" "cat" "alog") as [_ [_ H]].
  apply H. simpl. lia.
Defined.

Lemma finish_wpm_nonneg_witness :
  exists v,
    finish_locals (running_tester "cat" "cat" 100) 94 = Ok v /\
    (elapsed v < 0)%Q /\ (0 <= wpm v)%Q.
Proof.
  destruct (finish_locals_total (running_tester "cat" "cat" 100) 94) as [v Hv].
  exists v. split; [exact Hv | split].
  - vm_compute in Hv. injection Hv as <-. reflexivity.
  - apply (finish_wpm_nonneg (running_tester "cat" "cat" 100) 94 v Hv).
Defined.

Lemma finish_again_recomputes_witness :
  exists self' v self'' v',
    Finalized (clock_from 103) (running_tester "cat" "cxt" 100) self' v /\
    Finalized (clock_from 103) self' self'' v' /\
    end_time self'' = Some (clock_from 103 2) /\
    correct_chars v' = correct_chars v.
Proof.
  destruct (finish_late (clock_from 103) (running_tester "cat" "cxt" 100) (or_introl eq_refl))
    as [self' [v F]].
  destruct (finish_again_recomputes (clock_from 103) _ _ _ F)
    as [self'' [v' [F' [_ [E [_ [_ [C _]]]]]]]].
  - reflexivity.
  - exists self', v, self'', v'.
    split; [exact F | split; [exact F' | split; [exact E | exact C]]].
Defined.

(** ** The input widget, [reset] and [new_text] *)

Section Widgets.

Variable clock : nat -> Q.

(** X12. [get_typed_text] drops nothing but newlines at the end: the text of
    the input widget is the typed text followed by some number of newlines, so
    every other character, and every newline that is followed by one, is
    kept; and the typed text is never longer than the widget's text. *)
Theorem get_typed_text_keeps_all_but_trailing_newlines (self : TypingTester) :
  exists k,
    input_entry self = get_typed_text self ++ newlines k /\
    String.length (input_entry self) = String.length (get_typed_text self) + k.
Proof.
  rewrite get_typed_text_rstrip.
  destruct (rstrip_suffix (input_entry self)) as [k Hk]. exists k.
  split; [exact Hk|].
  rewrite Hk at 1. rewrite string_app_length. f_equal.
  clear. induction k as [|k IH]; simpl; [reflexivity | rewrite IH; reflexivity].
Qed.

(** X13. Choosing a new text keeps whatever the input widget holds, while the
    Reset button empties it; [reset] done twice is [reset] done once; a new
    text replaces an earlier one altogether; and after the Reset button the
    typed text is empty. *)
Theorem new_text_keeps_input (r r' : nat) (clear_text : bool) (self : TypingTester) :
  input_entry (new_text r self) = input_entry self /\
  input_entry (reset true self) = "" /\
  get_typed_text (reset true self) = "" /\
  reset clear_text (reset clear_text self) = reset clear_text self /\
  new_text r (new_text r' self) = new_text r self /\
  reset false (new_text r self) = new_text r self /\
  sample (reset clear_text (new_text r self)) = random_choice r SAMPLE_TEXTS.
Proof.
  destruct self as [st en ru sa sx inp tl wl al log n].
  repeat split; destruct clear_text; reflexivity.
Qed.

End Widgets.

(** ** Invariants of the reachable objects *)

Section Invariants.

Variable clock : nat -> Q.

Lemma Inv_init (r : nat) : Inv (init r).
Proof.
  unfold Inv. split; [| split; [reflexivity | split]].
  - change (sample (init r)) with (random_choice r SAMPLE_TEXTS).
    unfold random_choice. apply nth_In. apply Nat.mod_upper_bound. discriminate.
  - intros H. discriminate H.
  - intros H. exfalso. apply H. reflexivity.
Qed.

Lemma Inv_finish (self self' : TypingTester) :
  Inv self -> finish clock self = Ok self' -> Inv self'.
Proof.
  intros [I1 [I2 [I3 I4]]] H.
  destruct (finish_frame clock _ _ H) as [Fs [Fx [_ Ft]]].
  unfold Inv. rewrite Fs, Fx, Ft.
  split; [exact I1 | split; [exact I2|]].
  destruct (running self) eqn:R; [|destruct (truthy (start_time self)) eqn:T].
  - destruct (finish_end clock _ _ (or_introl R) H) as [_ [_ R']].
    split; [rewrite R'; discriminate | intros _; apply I3; reflexivity].
  - destruct (finish_end clock _ _ (or_intror T) H) as [_ [_ R']].
    split; [rewrite R'; discriminate | intros _].
    destruct (start_time self) as [t|]; [eauto | discriminate T].
  - rewrite (finish_early clock self R T) in H. injection H as <-.
    split; [intros R'; simpl in R'; rewrite R in R'; discriminate R' | exact I4].
Qed.

Lemma Inv_started (self : TypingTester) : Inv self -> Inv (started clock self).
Proof.
  intros [I1 [I2 _]]. unfold Inv.
  split; [exact I1 | split; [exact I2 | split; intros _; eexists; reflexivity]].
Qed.

Lemma Inv_step (a : Action) (self self' : TypingTester) :
  Inv self -> step clock a self = Ok self' -> Inv self'.
Proof.
  intros I H. destruct a as [event | text | | | r]; simpl in H.
  - destruct (running self) eqn:R.
    + rewrite (on_key_press_running clock event self R) in H.
      destruct (_ <=? _); [apply (Inv_finish self); assumption|].
      injection H as <-. exact I.
    + destruct (Nat.eq_dec (String.length (char event)) 0) as [C|C].
      * rewrite (on_key_press_idle_ignored clock event self R C) in H.
        injection H as <-. exact I.
      * rewrite (on_key_press_idle_start clock event self R C) in H.
        destruct (_ <=? _).
        -- apply (Inv_finish (started clock self)); [apply Inv_started|]; assumption.
        -- injection H as <-. apply Inv_started. exact I.
  - injection H as <-. exact I.
  - apply (Inv_finish self); assumption.
  - injection H as <-. destruct I as [I1 [I2 _]].
    unfold Inv. split; [exact I1 | split; [exact I2 | split]].
    + intros H. discriminate H.
    + intros H. exfalso. apply H. reflexivity.
  - injection H as <-. unfold Inv. split; [| split; [reflexivity | split]].
    + change (sample (new_text r self)) with (random_choice r SAMPLE_TEXTS).
      unfold random_choice. apply nth_In. apply Nat.mod_upper_bound. discriminate.
    + intros H. discriminate H.
    + intros H. exfalso. apply H. reflexivity.
Qed.

Lemma Inv_run (l : list Action) (self self' : TypingTester) :
  Inv self -> run clock l self = Ok self' -> Inv self'.
Proof.
  revert self. induction l as [|a l IH]; intros self I H; simpl in H.
  - injection H as <-. exact I.
  - destruct (step clock a self) as [s|] eqn:Hs; simpl in H; [|discriminate].
    apply (IH s); [apply (Inv_step a self); assumption | exact H].
Qed.

Lemma Inv_reachable (self : TypingTester) : Reachable clock self -> Inv self.
Proof.
  intros [r [l H]]. apply (Inv_run l (init r)); [apply Inv_init | exact H].
Qed.

Lemma sample_texts_not_empty (s : string) :
  In s SAMPLE_TEXTS -> 44 <= String.length s.
Proof.
  intros H. repeat (destruct H as [<- | H]; [vm_compute; lia|]). destruct H.
Qed.

(** X14. In every object the program can reach, the passage is one of
    [SAMPLE_TEXTS] (so it has at least 44 characters), the passage shown in
    the sample widget is the passage that is scored, a running test has a
    start time, and an end time is only ever set together with a start
    time. *)
Theorem reachable_invariants (self : TypingTester) :
  Reachable clock self ->
  In (sample self) SAMPLE_TEXTS /\
  44 <= String.length (sample self) /\
  sample_text self = sample self /\
  (running self = true -> exists t, start_time self = Some t) /\
  (end_time self <> None -> exists t, start_time self = Some t).
Proof.
  intros H. destruct (Inv_reachable self H) as [I1 [I2 [I3 I4]]].
  split; [exact I1 | split; [apply sample_texts_not_empty; exact I1 |]].
  split; [exact I2 | split; [exact I3 | exact I4]].
Qed.

(** X15. In every object the program can reach, a [finish] that produces a
    result finds [start_time] set: the [None] case of line 131 never decides
    the elapsed time, which is [end_time - start_time] unless [start_time] is
    0. *)
Theorem reachable_finish_has_start_time
    (self self' : TypingTester) (v : Locals) :
  Reachable clock self ->
  Finalized clock self self' v ->
  exists t,
    start_time self = Some t /\
    (~ (t == 0)%Q -> elapsed v = (clock (time_calls self) - t)%Q) /\
    ((t == 0)%Q -> elapsed v = 0%Q).
Proof.
  intros Hr F. destruct (Inv_reachable self Hr) as [_ [_ [I3 _]]].
  assert (S : exists t, start_time self = Some t).
  { destruct (running self) eqn:R; [apply I3; reflexivity|].
    destruct (start_time self) as [t|] eqn:E; [eauto|].
    exfalso. apply (Finalized_not_NotStarted clock _ _ _ F).
    apply finish_early; [exact R | rewrite E; reflexivity]. }
  destruct S as [t St]. exists t. split; [exact St|].
  destruct F as [_ [Hv _]]. apply finish_locals_inv in Hv. destruct Hv as [Hel _].
  rewrite St in Hel. split.
  - intros Hz. rewrite Hel. apply compute_elapsed_started. exact Hz.
  - intros Hz. rewrite Hel. apply compute_elapsed_missing.
    simpl. apply negb_false_iff. apply Qeq_bool_iff. exact Hz.
Qed.

Lemma Idle_step (a : Action) (self : TypingTester) :
  Idle self -> visible_key a = false ->
  exists self', step clock a self = Ok self' /\ Idle self'.
Proof.
  intros I V. pose proof I as [R [S [E [Lt [Lw [La Ll]]]]]].
  destruct a as [event | text | | | r]; simpl.
  - simpl in V. apply negb_false_iff, Nat.eqb_eq in V.
    rewrite (on_key_press_idle_ignored clock event self R V). eauto.
  - eexists. split; [reflexivity|]. exact I.
  - assert (T : truthy (start_time self) = false) by (rewrite S; reflexivity).
    rewrite (finish_early clock self R T). eexists. split; [reflexivity|].
    unfold Idle. repeat split; try assumption.
    simpl. apply Forall_app. split; [exact Ll|]. constructor; [reflexivity | constructor].
  - eexists. split; [reflexivity|].
    unfold Idle, reset. repeat split. exact Ll.
  - eexists. split; [reflexivity|].
    unfold Idle. repeat split. exact Ll.
Qed.

(** X16. Until a key press carries a character, no test begins: after
    [__init__] and any callbacks other than such a key press the tester is
    not running, has no start or end time, shows zeroed labels, every
    [finish] only shows the "start typing first" prompt, and no "Results"
    dialog has been shown. *)
Theorem idle_until_visible_key (r : nat) (l : list Action) :
  forallb (fun a => negb (visible_key a)) l = true ->
  exists self,
    run clock l (init r) = Ok self /\
    Idle self /\
    NotStarted clock self.
Proof.
  intros H.
  assert (G : forall s, Idle s ->
                        exists s', run clock l s = Ok s' /\ Idle s').
  { induction l as [|a l IH]; intros s I; simpl.
    - eauto.
    - simpl in H. apply andb_true_iff in H. destruct H as [Ha Hl].
      apply negb_true_iff in Ha.
      destruct (Idle_step a s I Ha) as [s1 [H1 I1]].
      rewrite H1. simpl. apply (IH Hl). exact I1. }
  assert (I0 : Idle (init r)).
  { unfold Idle. repeat split. constructor. }
  destruct (G (init r) I0) as [s [Hs Is]].
  exists s. split; [exact Hs | split; [exact Is|]].
  destruct Is as [R [S _]].
  apply finish_early; [exact R | rewrite S; reflexivity].
Qed.

End Invariants.

Lemma reachable_invariants_witness :
  exists self,
    run (clock_from 7) [KeyPress (mkEvent "T"); Edit "The"; ClickFinish] (init 3) = Ok self /\
    sample_text self = sample self /\
    44 <= String.length (sample self).
Proof.
  destruct (run_total (clock_from 7)
              [KeyPress (mkEvent "T"); Edit "The"; ClickFinish] (init 3)) as [self H].
  exists self. split; [exact H|].
  destruct (reachable_invariants (clock_from 7) self) as [_ [L [T _]]].
  - exists 3, [KeyPress (mkEvent "T"); Edit "The"; ClickFinish]. exact H.
  - split; [exact T | exact L].
Defined.

Lemma reachable_finish_has_start_time_witness :
  exists self self' v,
    run (clock_from 7) [KeyPress (mkEvent "T"); Edit "The"] (init 3) = Ok self /\
    Finalized (clock_from 7) self self' v /\
    start_time self = Some (clock_from 7 0) /\
    elapsed v = (clock_from 7 1 - clock_from 7 0)%Q.
Proof.
  destruct (run_total (clock_from 7) [KeyPress (mkEvent "T"); Edit "The"] (init 3))
    as [self H].
  pose proof H as H'. vm_compute in H'. injection H' as H'.
  assert (R : running self = true) by (rewrite <- H'; reflexivity).
  destruct (finish_late (clock_from 7) self (or_introl R)) as [self' [v F]].
  exists self, self', v.
  destruct (reachable_finish_has_start_time (clock_from 7) self self' v)
    as [t [St [E _]]].
  - exists 3, [KeyPress (mkEvent "T"); Edit "The"]. exact H.
  - exact F.
  - assert (Et : Some t = Some (clock_from 7 0)).
    { rewrite <- St, <- H'. reflexivity. }
    injection Et as Et.
    split; [exact H | split; [exact F | split; [rewrite St, Et; reflexivity |]]].
    rewrite E.
    + rewrite Et, <- H'. reflexivity.
    + rewrite Et. intros Z. discriminate Z.
Defined.

Lemma idle_until_visible_key_witness :
  exists self,
    run (clock_from 7)
        [KeyPress (mkEvent ""); Edit "The"; ClickFinish; ClickNewText 4; ClickFinish; ClickReset]
        (init 3) = Ok self /\
    NotStarted (clock_from 7) self.
Proof.
  destruct (idle_until_visible_key (clock_from 7) 3
              [KeyPress (mkEvent ""); Edit "The"; ClickFinish; ClickNewText 4; ClickFinish;
               ClickReset]) as [self [H [_ N]]].
  - reflexivity.
  - exists self. split; [exact H | exact N].
Defined.

(** ** Elapsed time under a clock that does not step backwards *)

Section MonotoneClock.

Variable clock : nat -> Q.

Lemma finish_time_calls (self self' : TypingTester) :
  finish clock self = Ok self' -> time_calls self <= time_calls self'.
Proof.
  intros H.
  destruct (running self) eqn:R; [|destruct (truthy (start_time self)) eqn:T].
  - destruct (finish_end clock _ _ (or_introl R) H) as [E _]. lia.
  - destruct (finish_end clock _ _ (or_intror T) H) as [E _]. lia.
  - rewrite (finish_early clock self R T) in H. injection H as <-. simpl. lia.
Qed.

Lemma StartRead_finish (self self' : TypingTester) :
  StartRead clock self -> finish clock self = Ok self' -> StartRead clock self'.
Proof.
  intros I H t Ht.
  destruct (finish_frame clock _ _ H) as [_ [_ [_ Fs]]].
  rewrite Fs in Ht. destruct (I t Ht) as [k [Hk Ek]].
  exists k. split; [|exact Ek].
  pose proof (finish_time_calls _ _ H). lia.
Qed.

Lemma StartRead_started (self : TypingTester) : StartRead clock (started clock self).
Proof.
  intros t Ht. simpl in Ht. injection Ht as <-.
  exists (time_calls self). split; [simpl; lia | reflexivity].
Qed.

Lemma StartRead_step (a : Action) (self self' : TypingTester) :
  StartRead clock self -> step clock a self = Ok self' -> StartRead clock self'.
Proof.
  intros I H. destruct a as [event | text | | | r]; simpl in H.
  - destruct (running self) eqn:R.
    + rewrite (on_key_press_running clock event self R) in H.
      destruct (_ <=? _); [apply (StartRead_finish self); assumption|].
      injection H as <-. exact I.
    + destruct (Nat.eq_dec (String.length (char event)) 0) as [C|C].
      * rewrite (on_key_press_idle_ignored clock event self R C) in H.
        injection H as <-. exact I.
      * rewrite (on_key_press_idle_start clock event self R C) in H.
        destruct (_ <=? _).
        -- apply (StartRead_finish (started clock self));
             [apply StartRead_started | assumption].
        -- injection H as <-. apply StartRead_started.
  - injection H as <-. exact I.
  - apply (StartRead_finish self); assumption.
  - injection H as <-. intros t Ht. destruct self; discriminate Ht.
  - injection H as <-. intros t Ht. discriminate Ht.
Qed.

Lemma StartRead_reachable (self : TypingTester) :
  Reachable clock self -> StartRead clock self.
Proof.
  intros [r [l H]].
  assert (G : forall s, StartRead clock s -> run clock l s = Ok self -> StartRead clock self).
  { clear H. induction l as [|a l IH]; intros s I H; simpl in H.
    - injection H as <-. exact I.
    - destruct (step clock a s) as [s1|] eqn:Hs; simpl in H; [|discriminate].
      apply (IH s1); [apply (StartRead_step a s); assumption | exact H]. }
  apply (G (init r)); [|exact H].
  intros t Ht. discriminate Ht.
Qed.

(** X17. When the clock never steps backwards, every [finish] of a reachable
    object that produces a result reports a non-negative elapsed time:
    [start_time] is an earlier reading of the same clock, so it is at most the
    reading stored in [end_time]. *)
Theorem monotone_clock_elapsed_nonneg (self self' : TypingTester) (v : Locals) :
  (forall i j, i <= j -> (clock i <= clock j)%Q) ->
  Reachable clock self ->
  Finalized clock self self' v ->
  (0 <= elapsed v)%Q /\
  exists t e, start_time self' = Some t /\ end_time self' = Some e /\ (t <= e)%Q.
Proof.
  intros Mono Hr F.
  pose proof (StartRead_reachable self Hr) as I.
  destruct (Inv_reachable clock self Hr) as [_ [_ [I3 _]]].
  assert (S : exists t, start_time self = Some t).
  { destruct (running self) eqn:R; [apply I3; reflexivity|].
    destruct (start_time self) as [t|] eqn:E; [eauto|].
    exfalso. apply (Finalized_not_NotStarted clock _ _ _ F).
    apply finish_early; [exact R | rewrite E; reflexivity]. }
  destruct S as [t St]. destruct (I t St) as [k [Hk Ek]].
  assert (L : (t <= clock (time_calls self))%Q).
  { rewrite Ek. apply Mono. lia. }
  destruct F as [_ [Hv [He [_ [Hs _]]]]].
  apply finish_locals_inv in Hv. destruct Hv as [Hel _].
  split.
  - rewrite Hel, St. unfold compute_elapsed.
    destruct (truthy (Some t)); [lra | apply Qle_refl].
  - exists t, (clock (time_calls self)).
    split; [rewrite Hs; exact St | split; [exact He | exact L]].
Qed.

(** X18. Typing past the end of the passage always costs accuracy: when the
    typed text is longer than the passage, [finish] computes at most as many
    correct characters as the passage has, and an accuracy below 100. *)
Theorem finish_overlong_input (self : TypingTester) (now : Q) :
  String.length (sample self) < String.length (get_typed_text self) ->
  exists v,
    finish_locals self now = Ok v /\
    correct_chars v <= String.length (sample self) /\
    (accuracy v < 100)%Q.
Proof.
  intros L. destruct (finish_locals_total self now) as [v Hv]. exists v.
  destruct (finish_locals_inv _ _ _ Hv) as [_ [_ [Hc [Hn [_ [_ Ha]]]]]].
  pose proof (count_loop_le_sample (sample self) (get_typed_text self) 0) as B.
  rewrite <- Hc in B.
  split; [exact Hv | split; [lia|]].
  destruct (compute_accuracy_ok (correct_chars v) (total_typed v)) as [a [Ha' [Pos _]]].
  rewrite Ha in Ha'. injection Ha' as <-.
  assert (Hpos : 0 < total_typed v) by lia.
  rewrite (Pos Hpos).
  pose proof (of_int_pos _ Hpos) as Pn.
  assert (Lt : (of_int (correct_chars v) < of_int (total_typed v))%Q).
  { unfold of_int. rewrite <- Zlt_Qlt. lia. }
  assert (D : (of_int (correct_chars v) / of_int (total_typed v) < 1)%Q).
  { apply Qlt_shift_div_r; [exact Pn | lra]. }
  lra.
Qed.

End MonotoneClock.

Lemma clock_from_monotone (t0 : Q) (i j : nat) :
  i <= j -> (clock_from t0 i <= clock_from t0 j)%Q.
Proof.
  intros H. unfold clock_from. pose proof (of_int_le i j H). lra.
Qed.

Lemma monotone_clock_elapsed_nonneg_witness :
  exists self self' v,
    run (clock_from 7) [KeyPress (mkEvent "T"); Edit "The"] (init 3) = Ok self /\
    Finalized (clock_from 7) self self' v /\
    (0 <= elapsed v)%Q.
Proof.
  destruct (run_total (clock_from 7) [KeyPress (mkEvent "T"); Edit "The"] (init 3))
    as [self H].
  pose proof H as H'. vm_compute in H'. injection H' as H'.
  assert (R : running self = true) by (rewrite <- H'; reflexivity).
  destruct (finish_late (clock_from 7) self (or_introl R)) as [self' [v F]].
  exists self, self', v.
  destruct (monotone_clock_elapsed_nonneg (clock_from 7) self self' v) as [E _].
  - apply clock_from_monotone.
  - exists 3, [KeyPress (mkEvent "T"); Edit "The"]. exact H.
  - exact F.
  - split; [exact H | split; [exact F | exact E]].
Defined.

Lemma finish_overlong_input_witness :
  exists v,
    finish_locals (running_tester "cat" "cats" 100) 103 = Ok v /\
    (accuracy v < 100)%Q.
Proof.
  destruct (finish_overlong_input (running_tester "cat" "cats" 100) 103)
    as [v [Hv [_ A]]].
  - vm_compute. lia.
  - exists v. split; [exact Hv | exact A].
Defined.

(** ** The binary64 lines on ordinary inputs *)

(** Scenario B in binary64: the same counts, a WPM of exactly 8.0, and the
    substitution of [1e-9] at elapsed time [0.0]. *)
Example b64_finish_cat_cxt :
  exists v,
    B64.finish_locals "cat" "cxt" (Some (B64.of_int 100)) (B64.of_int 103) = Ok v /\
    B64.correct_chars v = 2 /\
    B64.elapsed v = B64.of_int 3 /\
    B64.wpm v = B64.of_int 8 /\
    B64.compute_minutes B64.zero = Ok B64.epsilon.
Proof.
  eexists. split; [vm_compute; reflexivity | repeat split].
Qed.
